(** * A shallow embedding of [scripts/parse_config.py] (sui-tools).

    The script reads a YAML configuration, validates the bridge and
    validator entity lists in place, generates one Prometheus rule file per
    entity and an Alertmanager routing document.  YAML values reach the
    script as Python objects; they are modelled by [pyval], dictionaries as
    association lists in insertion order (the order [yaml.dump] with
    [sort_keys=False] writes them).  Exceptions are the [Err] branch of a
    small error monad; file writes are not modelled, the documents the
    script dumps are returned instead. *)

From Stdlib Require Import String Ascii List ZArith Bool Lia Permutation.
Import ListNotations.
Open Scope string_scope.
Set Warnings "-register-all".

(* ------------------------------------------------------------------ *)
(** ** Python values and the error monad *)

Inductive pyval : Type :=
  | VNone
  | VBool (b : bool)
  | VInt (z : Z)
  | VStr (s : string)
  | VList (l : list pyval)
  | VDict (d : list (string * pyval)).

Definition pydict := list (string * pyval).

(** Python truthiness, [bool(v)]. *)
Definition truthy (v : pyval) : bool :=
  match v with
  | VNone => false
  | VBool b => b
  | VInt z => negb (Z.eqb z 0)
  | VStr s => negb (String.eqb s "")
  | VList l => match l with [] => false | _ => true end
  | VDict d => match d with [] => false | _ => true end
  end.

(** [d[k]] when [k in d]: the entry of key [k]. *)
Fixpoint dget (d : pydict) (k : string) : option pyval :=
  match d with
  | [] => None
  | (k', v) :: t => if String.eqb k k' then Some v else dget t k
  end.

(** [d.get(k, default)] on a dictionary. *)
Definition dget_default (d : pydict) (k : string) (default : pyval) : pyval :=
  match dget d k with Some v => v | None => default end.

(** [d[k] = v]: an existing key keeps its position, a new one is appended. *)
Fixpoint dset (d : pydict) (k : string) (v : pyval) : pydict :=
  match d with
  | [] => [(k, v)]
  | (k', v') :: t => if String.eqb k k' then (k', v) :: t else (k', v') :: dset t k v
  end.

Inductive entity_kind : Type := Bridge | Validator.

(** The [ValueError]s raised by the validators, one constructor per
    [raise] site (the message text is determined by these fields). *)
Inductive validation_error : Type :=
  | NotAList (kind : entity_kind)                        (* "bridges must be a list" *)
  | EntryNotDict (kind : entity_kind) (i : nat)          (* "Bridge {i} must be a dictionary" *)
  | MissingField (kind : entity_kind) (i : nat) (f : string)
  | EmptyField (kind : entity_kind) (i : nat) (f : string)
  | AlertsNotDict (kind : entity_kind) (i : nat)
  | InvalidAlertType (kind : entity_kind) (i : nat) (k : string)
  | AlertNotBoolean (kind : entity_kind) (i : nat) (k : string).

Inductive pyexc : Type :=
  | ValueError (e : validation_error)
  | ValueErrorInt (s : string)       (* int(s) on a non-numeric string *)
  | TypeError
  | AttributeError                   (* [.get] on a non-dictionary *)
  | KeyError (k : string)
  | Unsupported.                     (* str() of a list or dictionary: not modelled *)

Inductive result (A : Type) : Type :=
  | Ok (a : A)
  | Err (e : pyexc).
Arguments Ok {A} a.
Arguments Err {A} e.

Definition bind {A B : Type} (m : result A) (f : A -> result B) : result B :=
  match m with Ok a => f a | Err e => Err e end.

Notation "'let*' x ':=' m 'in' f" := (bind m (fun x => f))
  (at level 200, x name, m at level 100, f at level 200).

(** [v.get(k, default)] on an arbitrary value: only dictionaries have [.get]. *)
Definition py_get (v : pyval) (k : string) (default : pyval) : result pyval :=
  match v with
  | VDict d => Ok (dget_default d k default)
  | _ => Err AttributeError
  end.

(* ------------------------------------------------------------------ *)
(** ** Alert catalogue *)

(** [valid_alert_types] of [validate_alerts_config], in source order. *)
Definition bridge_alert_types : list string :=
  [ "uptime"; "metrics_public_key_availability"; "ingress_access"; "voting_power";
    "bridge_requests_errors"; "bridge_high_latency"; "bridge_high_cache_misses";
    "bridge_rpc_errors";
    "stale_sui_sync"; "stale_eth_sync"; "stale_eth_finalization"; "low_gas_balance" ].

(** [valid_alert_types] of [validate_validator_alerts_config], in source order. *)
Definition validator_alert_types : list string :=
  [ "uptime"; "reputation_rank"; "voting_power"; "tx_processing_latency_p95";
    "tx_processing_latency_p95_10s"; "tx_processing_latency_p95_3s";
    "tx_processing_latency_p50"; "proposal_latency"; "consensus_block_commit_rate";
    "committed_round_rate"; "fullnode_connectivity" ].

Definition valid_alert_types (kind : entity_kind) : list string :=
  match kind with Bridge => bridge_alert_types | Validator => validator_alert_types end.

(** [get_default_alerts] and [get_default_validator_alerts]: the same keys,
    in the same order, all [True]. *)
Definition get_default_alerts_dict : pydict :=
  map (fun k => (k, VBool true)) bridge_alert_types.

Definition get_default_validator_alerts_dict : pydict :=
  map (fun k => (k, VBool true)) validator_alert_types.

Definition get_default_alerts : pyval := VDict get_default_alerts_dict.
Definition get_default_validator_alerts : pyval := VDict get_default_validator_alerts_dict.

Definition default_alerts (kind : entity_kind) : pyval :=
  match kind with Bridge => get_default_alerts | Validator => get_default_validator_alerts end.

Definition required_fields (kind : entity_kind) : list string :=
  match kind with
  | Bridge => ["alias"; "target"; "public_address"]
  | Validator => ["alias"; "target"]
  end.

(* ------------------------------------------------------------------ *)
(** ** Validation ([validate_bridges_config], [validate_validators_config]) *)

Definition is_bool (v : pyval) : bool :=
  match v with VBool _ => true | _ => false end.

Fixpoint mem_string (k : string) (l : list string) : bool :=
  match l with [] => false | x :: t => String.eqb k x || mem_string k t end.

(** The loop [for alert_type, enabled in alerts.items()]. *)
Fixpoint check_alert_items (kind : entity_kind) (i : nat) (items : pydict) : result unit :=
  match items with
  | [] => Ok tt
  | (k, v) :: t =>
      if negb (mem_string k (valid_alert_types kind))
      then Err (ValueError (InvalidAlertType kind i k))
      else if negb (is_bool v)
      then Err (ValueError (AlertNotBoolean kind i k))
      else check_alert_items kind i t
  end.

(** [validate_alerts_config] / [validate_validator_alerts_config]. *)
Definition validate_alerts_config (kind : entity_kind) (alerts : pyval) (i : nat) : result unit :=
  match alerts with
  | VDict items => check_alert_items kind i items
  | _ => Err (ValueError (AlertsNotDict kind i))
  end.

(** The loop [for field in required_fields]. *)
Fixpoint check_required (kind : entity_kind) (i : nat) (fields : list string) (r : pydict)
  : result unit :=
  match fields with
  | [] => Ok tt
  | f :: fs =>
      match dget r f with
      | None => Err (ValueError (MissingField kind i f))
      | Some v =>
          if truthy v then check_required kind i fs r
          else Err (ValueError (EmptyField kind i f))
      end
  end.

(** One iteration of the validation loop, on entity [i]; returns the entity
    as it stands after the in-place update. *)
Definition validate_entry (kind : entity_kind) (i : nat) (e : pyval) : result pyval :=
  match e with
  | VDict r =>
      let* _ := check_required kind i (required_fields kind) r in
      match dget r "alerts" with
      | Some a => let* _ := validate_alerts_config kind a i in Ok (VDict r)
      | None => Ok (VDict (dset r "alerts" (default_alerts kind)))
      end
  | _ => Err (ValueError (EntryNotDict kind i))
  end.

Fixpoint validate_entries (kind : entity_kind) (i : nat) (es : list pyval) : result (list pyval) :=
  match es with
  | [] => Ok []
  | e :: t =>
      let* e' := validate_entry kind i e in
      let* t' := validate_entries kind (S i) t in
      Ok (e' :: t')
  end.

(** The validators return [None] and mutate the list in place; the model
    returns the list as it stands after the loop. *)
Definition validate_entities_config (kind : entity_kind) (v : pyval) : result (list pyval) :=
  match v with
  | VList es => validate_entries kind 0 es
  | _ => Err (ValueError (NotAList kind))
  end.

Definition validate_bridges_config := validate_entities_config Bridge.
Definition validate_validators_config := validate_entities_config Validator.

(* ------------------------------------------------------------------ *)
(** ** String helpers for the f-strings of the rule templates *)

(** The double quote character, written [dq] since it is the string
    delimiter; [q s] is the f-string fragment ["{s}"]. *)
Definition dq : string := String (ascii_of_nat 34) EmptyString.
Definition q (s : string) : string := dq ++ s ++ dq.

(** [s.replace(' ', '_')]. *)
Fixpoint under (s : string) : string :=
  match s with
  | EmptyString => EmptyString
  | String c t => String (if Ascii.eqb c " "%char then "_"%char else c) (under t)
  end.

(** [str(i)] for a non-negative index. *)
Fixpoint str_nat_aux (fuel n : nat) (acc : string) : string :=
  match fuel with
  | O => acc
  | S f =>
      let acc' := String (ascii_of_nat (48 + n mod 10)) acc in
      if Nat.ltb n 10 then acc' else str_nat_aux f (n / 10) acc'
  end.
Definition str_nat (n : nat) : string := str_nat_aux (S n) n "".

(* ------------------------------------------------------------------ *)
(** ** Rules, templates and rule generation *)

(** A rule as the script builds it: [alert], [expr], [for] and [labels]
    (in source order).  The [annotations] (summary, description and
    dashboard ids) are not modelled. *)
Record rule : Type := {
  r_alert : string;
  r_expr : string;
  r_for : string;
  r_labels : list (string * string)
}.

Record group : Type := {
  g_name : string;
  g_rules : list rule
}.

Fixpoint sget (l : list (string * string)) (k : string) : option string :=
  match l with
  | [] => None
  | (k', v) :: t => if String.eqb k k' then Some v else sget t k
  end.

(** The [alert_type] label of a rule. *)
Definition alert_type (r : rule) : option string := sget (r_labels r) "alert_type".

(** The dictionary literal shared by every [append] call; [kindpfx] is
    ["bridge"] or ["validator"]. *)
Definition mk_rule (kindpfx service severity key name for_ expr : string) (i : nat) (alias : string)
  : rule :=
  {| r_alert := name ++ "_" ++ under alias;
     r_expr := expr;
     r_for := for_;
     r_labels :=
       [ ("severity", severity); ("service", service);
         ("instance", "{{ $labels.instance }}"); ("alias", q alias);
         ("alert_type", key); (kindpfx ++ "_index", str_nat i);
         (kindpfx ++ "_alias", alias) ] |}.

(** One [if alerts.get(key, False): <category>_alerts.append(...)] block:
    the key it probes, the index of the list it appends to, and the rule. *)
Record template : Type := {
  t_key : string;
  t_cat : nat;
  t_build : nat -> string -> rule
}.

Definition sb : string := "service=" ++ q "sui_bridge".
Definition al (alias : string) : string := "alias=" ++ q alias.

Definition bridge_rule := mk_rule "bridge" "sui_bridge" "critical".

(** The twelve blocks of [generate_alert_rules], in source order;
    category 0 is [common_alerts], 1 [client_disabled_alerts],
    2 [client_enabled_alerts]. *)
Definition bridge_templates : list template := [
  {| t_key := "uptime"; t_cat := 0; t_build := fun i a =>
     bridge_rule "uptime" "SuiBridge_Uptime" "1m"
       ("increase(uptime{" ++ sb ++ ", " ++ al a ++ "}[10m]) == 0") i a |};
  {| t_key := "metrics_public_key_availability"; t_cat := 0; t_build := fun i a =>
     bridge_rule "metrics_public_key_availability" "SuiBridge_MetricsPublicKeyAvailability" "2m"
       ("probe_success{service=" ++ q "sui_bridge_health_check" ++ ", " ++ al a ++ "} == 0") i a |};
  {| t_key := "ingress_access"; t_cat := 0; t_build := fun i a =>
     bridge_rule "ingress_access" "SuiBridge_IngressAccess" "2m"
       ("probe_success{service=" ++ q "sui_bridge_ingress_check" ++ ", " ++ al a ++ "} == 0") i a |};
  {| t_key := "voting_power"; t_cat := 0; t_build := fun i a =>
     bridge_rule "voting_power" "SuiBridge_VotingPower" "5m"
       ("current_bridge_voting_rights{" ++ sb ++ ", authority=" ++ q "${SUI_VALIDATOR}" ++ ", "
          ++ al a ++ "} == 0") i a |};
  {| t_key := "bridge_requests_errors"; t_cat := 1; t_build := fun i a =>
     bridge_rule "bridge_requests_errors" "SuiBridge_BridgeRequestErrors" "5m"
       ("increase(bridge_err_requests{" ++ sb ++ ", type=" ++ q "handle_sui_tx_digest" ++ ", "
          ++ al a ++ "}[5m]) > 0") i a |};
  {| t_key := "bridge_high_latency"; t_cat := 1; t_build := fun i a =>
     bridge_rule "bridge_high_latency" "SuiBridge_HighETHRPCLatency" "5m"
       ("bridge_eth_rpc_queries_latency{" ++ sb ++ ", " ++ al a ++ "} > 5000") i a |};
  {| t_key := "bridge_high_cache_misses"; t_cat := 1; t_build := fun i a =>
     bridge_rule "bridge_high_cache_misses" "SuiBridge_HighCacheMisses" "5m"
       ("(rate(bridge_signer_with_cache_miss{" ++ sb ++ ", " ++ al a
          ++ "}[5m]) / (rate(bridge_signer_with_cache_hit{" ++ sb ++ ", " ++ al a
          ++ "}[5m]) + rate(bridge_signer_with_cache_miss{" ++ sb ++ ", " ++ al a
          ++ "}[5m]))) > 0.5") i a |};
  {| t_key := "bridge_rpc_errors"; t_cat := 1; t_build := fun i a =>
     bridge_rule "bridge_rpc_errors" "SuiBridge_SUIRPCErrors" "5m"
       ("increase(bridge_sui_rpc_errors{" ++ sb ++ ", " ++ al a ++ "}[5m]) > 0") i a |};
  {| t_key := "stale_sui_sync"; t_cat := 2; t_build := fun i a =>
     bridge_rule "stale_sui_sync" "SuiBridge_StaleSUISync" "1m"
       ("increase(bridge_last_synced_sui_checkpoints{" ++ sb ++ ", module_name=" ++ q "bridge"
          ++ ", " ++ al a ++ "}[30m]) == 0") i a |};
  {| t_key := "stale_eth_sync"; t_cat := 2; t_build := fun i a =>
     bridge_rule "stale_eth_sync" "SuiBridge_StaleETHSync" "1m"
       ("increase(bridge_last_synced_eth_blocks{" ++ sb ++ ", " ++ al a ++ "}[30m]) == 0") i a |};
  {| t_key := "stale_eth_finalization"; t_cat := 2; t_build := fun i a =>
     bridge_rule "stale_eth_finalization" "SuiBridge_StaleETHFinalization" "1m"
       ("increase(bridge_last_finalized_eth_block{" ++ sb ++ ", " ++ al a ++ "}[10m]) == 0") i a |};
  {| t_key := "low_gas_balance"; t_cat := 2; t_build := fun i a =>
     bridge_rule "low_gas_balance" "SuiBridge_LowGasBalance" "1m"
       ("bridge_gas_coin_balance{" ++ sb ++ ", " ++ al a ++ "} < 10000000000") i a |}
].

Definition validator_rule := mk_rule "validator" "sui_validator".

Definition p95_bucket (a : string) : string :=
  "rate(validator_service_handle_certificate_consensus_latency_bucket{" ++ al a ++ "}[5m])".

(** The eleven blocks of [generate_validator_alert_rules], in source order;
    category 0 is [critical_alerts], 1 [warning_alerts]. *)
Definition validator_templates (sui_validator : string) : list template := [
  {| t_key := "uptime"; t_cat := 0; t_build := fun i a =>
     validator_rule "critical" "uptime" "SuiValidator_Uptime" "2m"
       ("rate(uptime{" ++ al a ++ "}[5m]) == 0") i a |};
  {| t_key := "reputation_rank"; t_cat := 1; t_build := fun i a =>
     validator_rule "warning" "reputation_rank" "SuiValidator_ReputationRank" "30m"
       ("(scalar(consensus_reputation_scores{" ++ al a ++ ", authority=" ++ q sui_validator
          ++ "}) <= bool max(bottomk(scalar(consensus_handler_num_low_scoring_authorities{"
          ++ al a ++ "}), consensus_reputation_scores{" ++ al a ++ "}))) == 1") i a |};
  {| t_key := "voting_power"; t_cat := 0; t_build := fun i a =>
     validator_rule "critical" "voting_power" "SuiValidator_VotingPower" "5m"
       ("current_voting_right{" ++ al a ++ "} == 0") i a |};
  {| t_key := "tx_processing_latency_p95"; t_cat := 0; t_build := fun i a =>
     validator_rule "critical" "tx_processing_latency_p95" "SuiValidator_TxProcessingLatencyP95" "5m"
       ("histogram_quantile(0.95, " ++ p95_bucket a ++ ") > 15000") i a |};
  {| t_key := "tx_processing_latency_p95_10s"; t_cat := 1; t_build := fun i a =>
     validator_rule "warning" "tx_processing_latency_p95_10s"
       "SuiValidator_TxProcessingLatencyP95_10s" "5m"
       ("histogram_quantile(0.95, " ++ p95_bucket a ++ ") > 10000") i a |};
  {| t_key := "tx_processing_latency_p95_3s"; t_cat := 1; t_build := fun i a =>
     validator_rule "warning" "tx_processing_latency_p95_3s"
       "SuiValidator_TxProcessingLatencyP95_3s" "5m"
       ("histogram_quantile(0.95, " ++ p95_bucket a ++ ") > 3000") i a |};
  {| t_key := "tx_processing_latency_p50"; t_cat := 0; t_build := fun i a =>
     validator_rule "critical" "tx_processing_latency_p50" "SuiValidator_TxProcessingLatencyP50" "5m"
       ("histogram_quantile(0.50, " ++ p95_bucket a ++ ") > 5000") i a |};
  {| t_key := "proposal_latency"; t_cat := 0; t_build := fun i a =>
     validator_rule "critical" "proposal_latency" "SuiValidator_ProposalLatency" "5m"
       ("rate(consensus_quorum_receive_latency_sum{" ++ al a
          ++ "}[5m]) / rate(consensus_quorum_receive_latency_count{" ++ al a ++ "}[5m]) > 2") i a |};
  {| t_key := "consensus_block_commit_rate"; t_cat := 0; t_build := fun i a =>
     validator_rule "critical" "consensus_block_commit_rate" "SuiValidator_ConsensusBlockCommitRate" "5m"
       ("sum(rate(consensus_proposed_blocks{" ++ al a ++ ", force=" ++ q "false"
          ++ "}[5m])) + sum(rate(consensus_proposed_blocks{" ++ al a ++ ", force=" ++ q "true"
          ++ "}[5m])) < 3") i a |};
  {| t_key := "committed_round_rate"; t_cat := 0; t_build := fun i a =>
     validator_rule "critical" "committed_round_rate" "SuiValidator_CommittedRoundRate" "5m"
       ("rate(consensus_last_committed_leader_round{" ++ al a ++ "}[2m]) < 3") i a |};
  {| t_key := "fullnode_connectivity"; t_cat := 0; t_build := fun i a =>
     validator_rule "critical" "fullnode_connectivity" "SuiValidator_FullnodeConnectivity" "5m"
       ("rate(total_rpc_err{" ++ al a ++ ", name=" ++ q sui_validator ++ "}[2m]) > 0") i a |}
].

(** [alerts.get(key, False)] tested by [if]. *)
Definition enabled (alerts : pydict) (k : string) : bool :=
  truthy (dget_default alerts k (VBool false)).

Fixpoint update_nth {A : Type} (n : nat) (f : A -> A) (l : list A) : list A :=
  match l, n with
  | [], _ => []
  | x :: t, O => f x :: t
  | x :: t, S m => x :: update_nth m f t
  end.

(** One [if] block: append the instantiated rule to its category list. *)
Definition run_block (alerts : pydict) (i : nat) (alias : string)
  (cats : list (list rule)) (t : template) : list (list rule) :=
  if enabled alerts (t_key t)
  then update_nth (t_cat t) (fun b => (b ++ [t_build t i alias])%list) cats
  else cats.

(** The sequence of blocks, starting from [ncats] empty category lists. *)
Definition run_blocks (ncats : nat) (ts : list template) (alerts : pydict) (i : nat)
  (alias : string) : list (list rule) :=
  fold_left (run_block alerts i alias) ts (repeat [] ncats).

(** [if <category>_alerts: rules["groups"].append(...)], category by category. *)
Fixpoint emit_groups (names : list string) (cats : list (list rule)) : list group :=
  match names, cats with
  | n :: ns, c :: cs =>
      match c with
      | [] => emit_groups ns cs
      | _ => {| g_name := n; g_rules := c |} :: emit_groups ns cs
      end
  | _, _ => []
  end.

Definition bridge_group_names (alias : string) : list string :=
  map (fun p => p ++ under alias)
    ["sui_bridge_common_alerts_"; "sui_bridge_client_disabled_alerts_";
     "sui_bridge_client_enabled_alerts_"].

Definition validator_group_names (alias : string) : list string :=
  map (fun p => p ++ under alias)
    ["sui_validator_critical_alerts_"; "sui_validator_warning_alerts_"].

(** The [groups] of bridge [i]'s rule file. *)
Definition bridge_rules_for (i : nat) (alias : string) (alerts : pydict) : list group :=
  emit_groups (bridge_group_names alias) (run_blocks 3 bridge_templates alerts i alias).

(** The [groups] of validator [i]'s rule file. *)
Definition validator_rules_for (sui_validator : string) (i : nat) (alias : string)
  (alerts : pydict) : list group :=
  emit_groups (validator_group_names alias)
    (run_blocks 2 (validator_templates sui_validator) alerts i alias).

(** [e[k]] on an arbitrary value. *)
Definition py_index (e : pyval) (k : string) : result pyval :=
  match e with
  | VDict d => match dget d k with Some v => Ok v | None => Err (KeyError k) end
  | _ => Err TypeError
  end.

(** [alias = e["alias"]; alerts = e.get("alerts", default)], then
    [alias.lower()] (a string is needed) and [alerts.get(...)] (a
    dictionary is needed). *)
Definition entity_alias_alerts (default : pyval) (e : pyval) : result (string * pydict) :=
  let* a := py_index e "alias" in
  let* alerts := py_get e "alerts" default in
  match a with
  | VStr alias =>
      match alerts with
      | VDict d => Ok (alias, d)
      | _ => Err AttributeError
      end
  | _ => Err AttributeError
  end.

Fixpoint generate_alert_rules_from (i : nat) (bridges : list pyval) : result (list (list group)) :=
  match bridges with
  | [] => Ok []
  | b :: t =>
      let* p := entity_alias_alerts get_default_alerts b in
      let* rest := generate_alert_rules_from (S i) t in
      Ok (bridge_rules_for i (fst p) (snd p) :: rest)
  end.

(** [generate_alert_rules]: the groups of each bridge's file, in order. *)
Definition generate_alert_rules (bridges : list pyval) : result (list (list group)) :=
  generate_alert_rules_from 0 bridges.

Fixpoint generate_validator_alert_rules_from (sui_validator : string) (i : nat)
  (validators : list pyval) : result (list (list group)) :=
  match validators with
  | [] => Ok []
  | v :: t =>
      let* p := entity_alias_alerts get_default_validator_alerts v in
      let* rest := generate_validator_alert_rules_from sui_validator (S i) t in
      Ok (validator_rules_for sui_validator i (fst p) (snd p) :: rest)
  end.

(** [generate_validator_alert_rules]. *)
Definition generate_validator_alert_rules (validators : list pyval) (sui_validator : string)
  : result (list (list group)) :=
  generate_validator_alert_rules_from sui_validator 0 validators.

(* ------------------------------------------------------------------ *)
(** ** Scrape configuration ([generate_prometheus_config]) *)

(** The scheme detection of [generate_prometheus_config]:
    [(scheme, clean_target)]. *)
Definition strip_scheme (target : string) : string * string :=
  if String.prefix "https://" target
  then ("https", substring 8 (String.length target - 8) target)
  else if String.prefix "http://" target
  then ("http", substring 7 (String.length target - 7) target)
  else ("http", target).

(** [s.lower()] on ASCII letters. *)
Fixpoint lower (s : string) : string :=
  match s with
  | EmptyString => EmptyString
  | String c t =>
      let n := nat_of_ascii c in
      String (if andb (Nat.leb 65 n) (Nat.leb n 90) then ascii_of_nat (n + 32) else c) (lower t)
  end.

(** [str(z)]. *)
Definition str_Z (z : Z) : string :=
  match z with
  | Z.neg p => "-" ++ str_nat (Pos.to_nat p)
  | _ => str_nat (Z.to_nat z)
  end.

(** [f"{v}"] on a scalar. *)
Definition fstr (v : pyval) : result string :=
  match v with
  | VStr s => Ok s
  | VInt z => Ok (str_Z z)
  | VBool true => Ok "True"
  | VBool false => Ok "False"
  | VNone => Ok "None"
  | _ => Err Unsupported
  end.

(** A scrape job: its name, targets, [scheme] (absent on probe jobs) and the
    [instance] replacement of its relabelling (absent on validator jobs).
    Intervals, timeouts, static labels and the other probe relabellings are
    constants of the source and are not modelled. *)
Record scrape_job : Type := {
  job_name : string;
  job_targets : list string;
  job_scheme : option string;
  job_instance : option string
}.

Definition bridge_jobs (b : pyval) : result (list scrape_job) :=
  let* av := py_index b "alias" in
  let* tv := py_index b "target" in
  let* pv := py_index b "public_address" in
  match tv, av with
  | VStr target, VStr alias =>
      let (scheme, clean_target) := strip_scheme target in
      let base := "sui_bridge_" ++ under (lower alias) in
      let* public_address := fstr pv in
      Ok [ {| job_name := base; job_targets := [clean_target];
              job_scheme := Some scheme; job_instance := Some clean_target |};
           {| job_name := base ++ "_metrics_public_key_check";
              job_targets := [public_address ++ "/metrics_pub_key"];
              job_scheme := None; job_instance := Some clean_target |};
           {| job_name := base ++ "_ingress_check"; job_targets := [public_address];
              job_scheme := None; job_instance := Some clean_target |} ]
  | _, _ => Err AttributeError
  end.

Definition validator_job (v : pyval) : result scrape_job :=
  let* av := py_index v "alias" in
  let* tv := py_index v "target" in
  match tv, av with
  | VStr target, VStr alias =>
      let (scheme, clean_target) := strip_scheme target in
      Ok {| job_name := "sui_validator_" ++ under (lower alias); job_targets := [clean_target];
            job_scheme := Some scheme; job_instance := None |}
  | _, _ => Err AttributeError
  end.

Fixpoint map_result {A B : Type} (f : A -> result B) (l : list A) : result (list B) :=
  match l with
  | [] => Ok []
  | x :: t => let* y := f x in let* ys := map_result f t in Ok (y :: ys)
  end.

(** [for x in v]: lists yield their items, dictionaries their keys,
    strings their characters. *)
Fixpoint py_chars (s : string) : list pyval :=
  match s with EmptyString => [] | String c t => VStr (String c EmptyString) :: py_chars t end.

Definition py_iter (v : pyval) : result (list pyval) :=
  match v with
  | VList l => Ok l
  | VDict d => Ok (map (fun kv => VStr (fst kv)) d)
  | VStr s => Ok (py_chars s)
  | _ => Err TypeError
  end.

(** The [scrape_configs] after the static [prometheus] job. *)
Definition generate_prometheus_config (bridges : list pyval) (validators : pyval)
  : result (list scrape_job) :=
  let* bjobs := map_result bridge_jobs bridges in
  let* vs := py_iter validators in
  let* vjobs := map_result validator_job vs in
  Ok (concat bjobs ++ vjobs)%list.

(** What the loop body of [generate_prometheus_config] appends for bridge
    [b]: its metrics job named after its alias, scraping its clean target
    with its scheme, and the two probe jobs, without scheme, relabelling
    [instance] to the same clean target. *)
Definition bridge_jobs_layout (b : pyval) (js : list scrape_job) : Prop :=
  exists alias target m h g,
    py_index b "alias" = Ok (VStr alias) /\ py_index b "target" = Ok (VStr target) /\
    js = [m; h; g] /\
    job_name m = "sui_bridge_" ++ under (lower alias) /\
    job_targets m = [snd (strip_scheme target)] /\
    job_scheme m = Some (fst (strip_scheme target)) /\
    job_instance m = Some (snd (strip_scheme target)) /\
    job_instance h = job_instance m /\ job_instance g = job_instance m /\
    job_scheme h = None /\ job_scheme g = None /\
    job_name h = job_name m ++ "_metrics_public_key_check" /\
    job_name g = job_name m ++ "_ingress_check".

(** What it appends for validator [v]. *)
Definition validator_job_layout (v : pyval) (j : scrape_job) : Prop :=
  exists alias target,
    py_index v "alias" = Ok (VStr alias) /\ py_index v "target" = Ok (VStr target) /\
    job_name j = "sui_validator_" ++ under (lower alias) /\
    job_targets j = [snd (strip_scheme target)] /\
    job_scheme j = Some (fst (strip_scheme target)) /\ job_instance j = None.

(* ------------------------------------------------------------------ *)
(** ** Notification routing ([generate_alertmanager_config]) *)

(** [int(s)] on a string: surrounding whitespace, an optional sign, then
    decimal digits with single underscores between digits (ASCII only). *)
Definition is_space (c : ascii) : bool :=
  let n := nat_of_ascii c in
  orb (andb (Nat.leb 9 n) (Nat.leb n 13)) (orb (andb (Nat.leb 28 n) (Nat.leb n 31)) (Nat.eqb n 32)).

Definition digit (c : ascii) : option Z :=
  let n := nat_of_ascii c in
  if andb (Nat.leb 48 n) (Nat.leb n 57) then Some (Z.of_nat (n - 48)) else None.

Fixpoint drop_spaces (l : list ascii) : list ascii :=
  match l with
  | c :: t => if is_space c then drop_spaces t else l
  | [] => []
  end.

Definition strip_spaces (s : string) : list ascii :=
  rev (drop_spaces (rev (drop_spaces (list_ascii_of_string s)))).

Fixpoint digits_rest (l : list ascii) (acc : Z) : option Z :=
  match l with
  | [] => Some acc
  | c :: t =>
      match digit c with
      | Some d => digits_rest t (acc * 10 + d)
      | None =>
          if Ascii.eqb c "_"%char then
            match t with
            | c2 :: t2 =>
                match digit c2 with
                | Some d => digits_rest t2 (acc * 10 + d)
                | None => None
                end
            | [] => None
            end
          else None
      end
  end.

Definition parse_uint (l : list ascii) : option Z :=
  match l with
  | c :: t => match digit c with Some d => digits_rest t d | None => None end
  | [] => None
  end.

Definition parse_int (s : string) : option Z :=
  match strip_spaces s with
  | c :: t =>
      if Ascii.eqb c "-"%char then option_map Z.opp (parse_uint t)
      else if Ascii.eqb c "+"%char then parse_uint t
      else parse_uint (c :: t)
  | [] => None
  end.

(** [int(v)]. *)
Definition py_int (v : pyval) : result Z :=
  match v with
  | VInt z => Ok z
  | VBool b => Ok (if b then 1%Z else 0%Z)
  | VStr s => match parse_int s with Some z => Ok z | None => Err (ValueErrorInt s) end
  | _ => Err TypeError
  end.

(** A receiver: its name, the port of its webhook
    ([f"http://localhost:{webhook_port}"]) and the optional
    [pagerduty_configs] (service key), [telegram_configs] (bot token and
    integer chat id) and [discord_configs] (webhook url).  Message texts are
    not modelled. *)
Record receiver : Type := {
  rc_name : string;
  rc_webhook_port : pyval;
  rc_pagerduty : option pyval;
  rc_telegram : option (pyval * Z);
  rc_discord : option pyval
}.

(** The [receivers] of the routing document; the [route] tree and
    [inhibit_rules] are constants of the source and are not modelled. *)
Record routing_doc : Type := {
  rd_receivers : list receiver
}.

Definition generate_alertmanager_config (config : pydict) : result routing_doc :=
  let cfg := VDict config in
  let* pd := py_get cfg "pagerduty" (VDict []) in
  let* pagerduty_key := py_get pd "integration_key" (VStr "") in
  let* tg := py_get cfg "telegram" (VDict []) in
  let* telegram_bot_token := py_get tg "bot_token" (VStr "") in
  let* telegram_chat_id := py_get tg "chat_id" (VStr "") in
  let* dc := py_get cfg "discord" (VDict []) in
  let* discord_webhook_url := py_get dc "webhook_url" (VStr "") in
  let* am := py_get cfg "alertmanager" (VDict []) in
  let* webhook_port := py_get am "default_webhook_port" (VStr "3001") in
  let has_pagerduty := truthy pagerduty_key in
  let has_telegram := andb (truthy telegram_bot_token) (truthy telegram_chat_id) in
  let has_discord := truthy discord_webhook_url in
  let default := {| rc_name := "default"; rc_webhook_port := webhook_port;
                    rc_pagerduty := None; rc_telegram := None; rc_discord := None |} in
  (* critical receiver *)
  let crit_pd := if has_pagerduty then Some pagerduty_key else None in
  let* crit_tg :=
    if has_telegram then let* cid := py_int telegram_chat_id in Ok (Some (telegram_bot_token, cid))
    else Ok None in
  let crit_dc := if has_discord then Some discord_webhook_url else None in
  let critical := {| rc_name := "critical"; rc_webhook_port := webhook_port;
                     rc_pagerduty := crit_pd; rc_telegram := crit_tg; rc_discord := crit_dc |} in
  (* warning receiver *)
  let* warn_tg :=
    if has_telegram then let* cid := py_int telegram_chat_id in Ok (Some (telegram_bot_token, cid))
    else Ok None in
  let warn_dc := if has_discord then Some discord_webhook_url else None in
  let warning := {| rc_name := "warning"; rc_webhook_port := webhook_port;
                    rc_pagerduty := None; rc_telegram := warn_tg; rc_discord := warn_dc |} in
  Ok {| rd_receivers := [default; critical; warning] |}.

(** The receiver named [n] of a routing document. *)
Definition find_receiver (doc : routing_doc) (n : string) : option receiver :=
  find (fun r => String.eqb (rc_name r) n) (rd_receivers doc).

Definition has_channel {A : Type} (o : option A) : bool :=
  match o with Some _ => true | None => false end.

(** The value [config.get(section, {}).get(key, "")] reads, when the
    section is a dictionary or absent. *)
Definition credential_d (config : pydict) (section key : string) (default : pyval) : pyval :=
  match dget config section with
  | Some (VDict d) => dget_default d key default
  | _ => default
  end.

Definition credential (config : pydict) (section key : string) : pyval :=
  credential_d config section key (VStr "").

(** The notification sections are dictionaries or absent, so that every
    [.get] of [generate_alertmanager_config] succeeds. *)
Definition section_ok (config : pydict) (section : string) : bool :=
  match dget config section with
  | None | Some (VDict _) => true
  | Some _ => false
  end.

Definition sections_ok (config : pydict) : bool :=
  section_ok config "pagerduty" && section_ok config "telegram" &&
  section_ok config "discord" && section_ok config "alertmanager".

(* ------------------------------------------------------------------ *)
(** ** [main], up to the routing document *)

Record artifacts : Type := {
  art_scrape : list scrape_job;
  art_bridge_rules : list (list group);
  art_validator_rules : list (list group);
  art_routing : routing_doc
}.

(** [config.get("sui", {}).get("validator", "")]. *)
Definition sui_validator_of (config : pydict) : result pyval :=
  let* sui := py_get (VDict config) "sui" (VDict []) in
  py_get sui "validator" (VStr "").

(** [main] after [load_config]: a missing [bridges] section ends the run
    ([sys.exit(1)], here [KeyError]).  The f-string rendering of
    [sui_validator] is done once, when validator rules are generated. *)
Definition main_run (config : pydict) : result artifacts :=
  match dget config "bridges" with
  | None => Err (KeyError "bridges")
  | Some bv =>
      let* bridges := validate_bridges_config bv in
      let validators_raw := dget_default config "validators" (VList []) in
      let* validators :=
        if truthy validators_raw
        then let* vs := validate_validators_config validators_raw in Ok (VList vs)
        else Ok validators_raw in
      let* sui_validator := sui_validator_of config in
      let* scrape := generate_prometheus_config bridges validators in
      let* brules := generate_alert_rules bridges in
      let* vrules :=
        if truthy validators then
          let* vs := py_iter validators in
          let* sv := fstr sui_validator in
          generate_validator_alert_rules vs sv
        else Ok [] in
      let* routing := generate_alertmanager_config config in
      Ok {| art_scrape := scrape; art_bridge_rules := brules;
            art_validator_rules := vrules; art_routing := routing |}
  end.

(* ------------------------------------------------------------------ *)
(** ** Auxiliary functions used in statements *)

(** [n in h] on strings. *)
Fixpoint is_sub (n h : string) : bool :=
  String.prefix n h || match h with EmptyString => false | String _ t => is_sub n t end.

(** All rules of one rule file, groups concatenated in emission order. *)
Definition file_rules (gs : list group) : list rule := concat (map g_rules gs).

(** The routing document [generate_alertmanager_config] builds when it
    succeeds, given the value of the telegram channel. *)
Definition routing_of (config : pydict) (tg : option (pyval * Z)) : routing_doc :=
  let port := credential_d config "alertmanager" "default_webhook_port" (VStr "3001") in
  let pk := credential config "pagerduty" "integration_key" in
  let url := credential config "discord" "webhook_url" in
  {| rd_receivers :=
       [ {| rc_name := "default"; rc_webhook_port := port;
            rc_pagerduty := None; rc_telegram := None; rc_discord := None |};
         {| rc_name := "critical"; rc_webhook_port := port;
            rc_pagerduty := if truthy pk then Some pk else None; rc_telegram := tg;
            rc_discord := if truthy url then Some url else None |};
         {| rc_name := "warning"; rc_webhook_port := port;
            rc_pagerduty := None; rc_telegram := tg;
            rc_discord := if truthy url then Some url else None |} ] |}.

(** The canonical form of a scrape target: itself when it carries an
    [http://] or [https://] scheme, otherwise with the default [http://]. *)
Definition canonical_target (x : string) : string :=
  if String.prefix "https://" x || String.prefix "http://" x then x else "http://" ++ x.

(** Validation changes entity [e] into [e'] only by completing [alerts]. *)
Definition completes_alerts_only (kind : entity_kind) (e e' : pyval) : Prop :=
  exists r r', e = VDict r /\ e' = VDict r' /\
    (forall k, k <> "alerts" -> dget r' k = dget r k) /\
    (forall a, dget r "alerts" = Some a -> r' = r) /\
    (dget r "alerts" = None -> r' = dset r "alerts" (default_alerts kind)).

(** A required field missing, or present with a false value ([not v]). *)
Definition field_missing_or_empty (r : pydict) (f : string) : Prop :=
  dget r f = None \/ exists v, dget r f = Some v /\ truthy v = false.

Definition bad_alert_item (kind : entity_kind) (items : pydict) : Prop :=
  exists k v, In (k, v) items /\
    (mem_string k (valid_alert_types kind) = false \/ is_bool v = false).

(** The failure conditions the spec lists for one entity. *)
Definition spec_entry_bad (kind : entity_kind) (e : pyval) : Prop :=
  match e with
  | VDict r =>
      (exists f, In f (required_fields kind) /\ field_missing_or_empty r f) \/
      (exists items, dget r "alerts" = Some (VDict items) /\ bad_alert_item kind items)
  | _ => True
  end.

(** The same, with an [alerts] value that is not a dictionary added. *)
Definition entry_bad (kind : entity_kind) (e : pyval) : Prop :=
  match e with
  | VDict r =>
      (exists f, In f (required_fields kind) /\ field_missing_or_empty r f) \/
      (exists a, dget r "alerts" = Some a /\
         match a with VDict items => bad_alert_item kind items | _ => True end)
  | _ => True
  end.

(** Sample inputs. *)
Definition cfg_channels : pydict :=
  [ ("pagerduty", VDict [("integration_key", VStr "pd-key")]);
    ("telegram", VDict [("bot_token", VStr "123:abc"); ("chat_id", VStr "-1001")]);
    ("discord", VDict [("webhook_url", VStr "https://discord.example/hook")]) ].

Definition cfg_bad_chat_id : pydict :=
  [ ("telegram", VDict [("bot_token", VStr "123:abc"); ("chat_id", VStr "my-chat")]) ].

Definition cfg_empty_credentials : pydict :=
  [ ("pagerduty", VDict [("integration_key", VStr "")]);
    ("telegram", VDict [("bot_token", VStr "123:abc"); ("chat_id", VStr "")]);
    ("discord", VDict [("webhook_url", VStr "")]) ].

Definition bridge_alerts_null : pydict :=
  [ ("alias", VStr "Alpha"); ("target", VStr "http://10.0.0.1:9100");
    ("public_address", VStr "https://alpha.example.com"); ("alerts", VNone) ].

(** The rules one category list receives: the enabled blocks of that
    category, in source order. *)
Definition bucket (ts : list template) (alerts : pydict) (i : nat) (alias : string) (c : nat)
  : list rule :=
  map (fun t => t_build t i alias)
    (filter (fun t => Nat.eqb (t_cat t) c && enabled alerts (t_key t)) ts).

(** The rule groups of one entity of either kind. *)
Definition entity_rules (kind : entity_kind) (sui_validator : string) (i : nat) (alias : string)
  (alerts : pydict) : list group :=
  match kind with
  | Bridge => bridge_rules_for i alias alerts
  | Validator => validator_rules_for sui_validator i alias alerts
  end.

(** The alert types of the [critical_alerts] and [warning_alerts] blocks of
    [generate_validator_alert_rules], each in source order. *)
Definition validator_critical_types : list string :=
  [ "uptime"; "voting_power"; "tx_processing_latency_p95"; "tx_processing_latency_p50";
    "proposal_latency"; "consensus_block_commit_rate"; "committed_round_rate";
    "fullnode_connectivity" ].

Definition validator_warning_types : list string :=
  [ "reputation_rank"; "tx_processing_latency_p95_10s"; "tx_processing_latency_p95_3s" ].

(** The order in which the alert types appear in an entity's rule file:
    for bridges the catalogue order, for validators the critical ones
    first, then the warning ones. *)
Definition emission_order (kind : entity_kind) : list string :=
  match kind with
  | Bridge => bridge_alert_types
  | Validator => validator_critical_types ++ validator_warning_types
  end.

Fixpoint nodupb (l : list string) : bool :=
  match l with [] => true | x :: t => negb (mem_string x t) && nodupb t end.

Definition bridge_with_alerts (alerts : pydict) : pydict :=
  [ ("alias", VStr "Alpha"); ("target", VStr "http://10.0.0.1:9100");
    ("public_address", VStr "https://alpha.example.com"); ("alerts", VDict alerts) ].

Definition cfg_authority : pydict :=
  [ ("sui", VDict [("validator", VStr "0xabc")]);
    ("bridges", VList [VDict (bridge_with_alerts [("voting_power", VBool true)])]);
    ("validators", VList [VDict [("alias", VStr "V1"); ("target", VStr "10.0.0.2:9184")]]) ].

Definition cfg_partial_alerts : pydict :=
  [ ("bridges", VList [VDict (bridge_with_alerts [("uptime", VBool true)])]) ].

Definition three_alerts : pydict :=
  [ ("uptime", VBool true); ("reputation_rank", VBool true); ("voting_power", VBool true) ].

Definition validator_three : pydict :=
  [ ("alias", VStr "V1"); ("target", VStr "10.0.0.2:9184"); ("alerts", VDict three_alerts) ].

#[global] Arguments enabled alerts k : simpl never.

(* ------------------------------------------------------------------ *)
(** ** Rule file names *)

(** [s.replace(c, d)] for single characters. *)
Fixpoint replace_char (c d : ascii) (s : string) : string :=
  match s with
  | EmptyString => EmptyString
  | String x t => String (if Ascii.eqb x c then d else x) (replace_char c d t)
  end.

(** [alias.lower().replace(" ", "_").replace("-", "_")]. *)
Definition safe_alias (alias : string) : string :=
  replace_char "-"%char "_"%char (under (lower alias)).

(** [f"sui_bridge_{i}_{safe_alias}_alerts.yml"], joined to the output
    directory. *)
Definition bridge_rule_file (i : nat) (safe : string) : string :=
  "sui_bridge_" ++ str_nat i ++ "_" ++ safe ++ "_alerts.yml".

Definition validator_rule_file (i : nat) (safe : string) : string :=
  "sui_validator_" ++ str_nat i ++ "_" ++ safe ++ "_alerts.yml".

(** The files the loop of [generate_alert_rules] writes, in order, one per
    iteration, and the exception that ends the loop early, if any. *)
Fixpoint write_bridge_rule_files (i : nat) (bridges : list pyval)
  : list (string * list group) * option pyexc :=
  match bridges with
  | [] => ([], None)
  | b :: t =>
      match entity_alias_alerts get_default_alerts b with
      | Err e => ([], Some e)
      | Ok (alias, alerts) =>
          let (fs, err) := write_bridge_rule_files (S i) t in
          ((bridge_rule_file i (safe_alias alias), bridge_rules_for i alias alerts) :: fs, err)
      end
  end.

(** The same for [generate_validator_alert_rules]. *)
Fixpoint write_validator_rule_files (sui_validator : string) (i : nat) (validators : list pyval)
  : list (string * list group) * option pyexc :=
  match validators with
  | [] => ([], None)
  | v :: t =>
      match entity_alias_alerts get_default_validator_alerts v with
      | Err e => ([], Some e)
      | Ok (alias, alerts) =>
          let (fs, err) := write_validator_rule_files sui_validator (S i) t in
          ((validator_rule_file i (safe_alias alias),
            validator_rules_for sui_validator i alias alerts) :: fs, err)
      end
  end.

(* ------------------------------------------------------------------ *)
(** ** Alertmanager routing *)

(** The child routes of the [route] tree of [generate_alertmanager_config]:
    [match: {severity: ...}] and the receiver; the root receiver is
    [default]. *)
Definition alertmanager_routes : list (string * string) :=
  [("critical", "critical"); ("warning", "warning")].

(** The receiver an alert with these labels reaches: the first child route
    whose [severity] matches, else the root's. *)
Definition route_receiver (labels : list (string * string)) : string :=
  match find (fun m => match sget labels "severity" with
                       | Some s => String.eqb s (fst m)
                       | None => false
                       end) alertmanager_routes with
  | Some m => snd m
  | None => "default"
  end.

(* ------------------------------------------------------------------ *)
(** ** Shell exports ([export_bridge_variables], [export_validator_variables]) *)

(** [s.upper()] on ASCII letters. *)
Fixpoint upper (s : string) : string :=
  match s with
  | EmptyString => EmptyString
  | String c t =>
      let n := nat_of_ascii c in
      String (if andb (Nat.leb 97 n) (Nat.leb n 122) then ascii_of_nat (n - 32) else c) (upper t)
  end.

Definition sq : string := String (ascii_of_nat 39) EmptyString.

(** [f"export {name}='{value}'"]. *)
Definition export_line (name value : string) : string :=
  "export " ++ name ++ "=" ++ sq ++ value ++ sq.

(** [str(enabled).lower()]. *)
Definition flag_str (v : pyval) : result string :=
  let* s := fstr v in Ok (lower s).

(** [for alert_type, enabled in alerts.items(): print(...)]. *)
Fixpoint alert_flag_lines (i : nat) (items : pydict) : result (list string) :=
  match items with
  | [] => Ok []
  | (k, v) :: t =>
      let* s := flag_str v in
      let* rest := alert_flag_lines i t in
      Ok (export_line ("SUI_BRIDGE_" ++ str_nat i ++ "_ALERT_" ++ upper k) s :: rest)
  end.

(** The lines printed for bridge [i]. *)
Definition bridge_export_block (i : nat) (b : pyval) : result (list string) :=
  let* av := py_index b "alias" in
  let* tv := py_index b "target" in
  let* pv := py_index b "public_address" in
  let* alerts := py_get b "alerts" get_default_alerts in
  let* alias := fstr av in
  let* target := fstr tv in
  let* public_address := fstr pv in
  let head := [ export_line ("SUI_BRIDGE_" ++ str_nat i ++ "_ALIAS") alias;
                export_line ("SUI_BRIDGE_" ++ str_nat i ++ "_TARGET") target;
                export_line ("SUI_BRIDGE_" ++ str_nat i ++ "_PUBLIC_ADDRESS") public_address ] in
  match alerts with
  | VDict items => let* flags := alert_flag_lines i items in Ok (app head flags)
  | _ => Err AttributeError
  end.

Fixpoint bridge_export_blocks (i : nat) (bridges : list pyval) : result (list string) :=
  match bridges with
  | [] => Ok []
  | b :: t =>
      let* ls := bridge_export_block i b in
      let* rest := bridge_export_blocks (S i) t in
      Ok (app ls rest)
  end.

(** The lines [export_bridge_variables] prints; the JSON copy it writes to
    [generated_configs/bridges.json] is not modelled. *)
Definition export_bridge_variables (bridges : list pyval) (sui_validator : string)
  : result (list string) :=
  let* blocks := bridge_export_blocks 0 bridges in
  Ok (app [ "# Bridge configuration variables";
            "export SUI_BRIDGES_COUNT=" ++ str_nat (length bridges);
            export_line "SUI_VALIDATOR" sui_validator ]
         (app blocks [ export_line "SUI_BRIDGES_CONFIG_FILE" "generated_configs/bridges.json" ])).

(** The index a validation error reports, if any. *)
Definition error_index (e : validation_error) : option nat :=
  match e with
  | NotAList _ => None
  | EntryNotDict _ i | MissingField _ i _ | EmptyField _ i _ | AlertsNotDict _ i
  | InvalidAlertType _ i _ | AlertNotBoolean _ i _ => Some i
  end.

(** The value of a string of decimal digits. *)
Fixpoint digits_value (s : string) (acc : nat) : nat :=
  match s with
  | EmptyString => acc
  | String c t => digits_value t (10 * acc + (nat_of_ascii c - 48))
  end.

Fixpoint all_digits (s : string) : bool :=
  match s with
  | EmptyString => true
  | String c t => Nat.leb 48 (nat_of_ascii c) && Nat.leb (nat_of_ascii c) 57 && all_digits t
  end.

Fixpoint no_char (c : ascii) (s : string) : bool :=
  match s with
  | EmptyString => true
  | String x t => negb (Ascii.eqb x c) && no_char c t
  end.

(** Two bridges: the first with two alert flags, the second without an
    [alerts] mapping. *)
Definition bridges_two : pyval :=
  VList [ VDict (bridge_with_alerts [("uptime", VBool true); ("voting_power", VBool false)]);
          VDict [ ("alias", VStr "Beta"); ("target", VStr "10.0.0.3:9100");
                  ("public_address", VStr "https://beta.example.com") ] ].

Definition scrape_bridges : list pyval :=
  [ VDict (bridge_with_alerts []);
    VDict [ ("alias", VStr "Beta Node"); ("target", VStr "10.0.0.3:9100");
            ("public_address", VStr "https://beta.example.com") ] ].

Definition scrape_validators : pyval :=
  VList [ VDict [("alias", VStr "V1"); ("target", VStr "https://v1:9184")];
          VDict [("alias", VStr "V2"); ("target", VStr "10.0.0.5:9184")] ].

Definition cfg_null_validators : pydict :=
  [ ("bridges", VList [VDict (bridge_with_alerts [("uptime", VBool true)])]);
    ("validators", VNone) ].

(** The [kindpfx] of the index and alias labels, and the [service] label. *)
Definition kind_prefix (kind : entity_kind) : string :=
  match kind with Bridge => "bridge" | Validator => "validator" end.

Definition kind_service (kind : entity_kind) : string :=
  match kind with Bridge => "sui_bridge" | Validator => "sui_validator" end.

Definition entity_group_names (kind : entity_kind) (alias : string) : list string :=
  match kind with Bridge => bridge_group_names alias | Validator => validator_group_names alias end.

(* ------------------------------------------------------------------ *)
(** * Proofs *)

(** ** The routing document *)

Lemma generate_alertmanager_config_spec (config : pydict) :
  generate_alertmanager_config config =
  if sections_ok config then
    let tok := credential config "telegram" "bot_token" in
    let cid := credential config "telegram" "chat_id" in
    if truthy tok && truthy cid then
      match py_int cid with
      | Ok z => Ok (routing_of config (Some (tok, z)))
      | Err e => Err e
      end
    else Ok (routing_of config None)
  else Err AttributeError.
Proof.
  unfold generate_alertmanager_config.
  cbn [py_get bind].
  unfold sections_ok, section_ok, routing_of, credential, credential_d, dget_default.
  destruct (dget config "pagerduty") as [[]|]; cbn; try reflexivity;
  destruct (dget config "telegram") as [[]|]; cbn; try reflexivity;
  destruct (dget config "discord") as [[]|]; cbn; try reflexivity;
  destruct (dget config "alertmanager") as [[]|]; cbn; try reflexivity;
  unfold dget_default;
  match goal with
  | |- context [if truthy ?a && truthy ?b then _ else _] => destruct (truthy a && truthy b)
  end; cbn; try reflexivity; destruct (py_int _); reflexivity.
Qed.

(** C4: in every routing document that is generated, the critical receiver
    has a PagerDuty channel iff the integration key is present (set to a
    non-empty value), the warning receiver never has one, and both receivers
    have a Telegram channel iff bot token and chat id are both present and a
    Discord channel iff the webhook url is present. *)
Theorem C4_receiver_channels (config : pydict) (doc : routing_doc)
  (Hgen : generate_alertmanager_config config = Ok doc) :
  let tok := credential config "telegram" "bot_token" in
  let cid := credential config "telegram" "chat_id" in
  let url := credential config "discord" "webhook_url" in
  exists crit warn,
    find_receiver doc "critical" = Some crit /\ find_receiver doc "warning" = Some warn /\
    has_channel (rc_pagerduty crit) = truthy (credential config "pagerduty" "integration_key") /\
    has_channel (rc_pagerduty warn) = false /\
    has_channel (rc_telegram crit) = truthy tok && truthy cid /\
    has_channel (rc_telegram warn) = truthy tok && truthy cid /\
    has_channel (rc_discord crit) = truthy url /\
    has_channel (rc_discord warn) = truthy url.
Proof.
  rewrite generate_alertmanager_config_spec in Hgen.
  destruct (sections_ok config); [|discriminate].
  cbv zeta in *.
  destruct (truthy (credential config "telegram" "bot_token") &&
            truthy (credential config "telegram" "chat_id")) eqn:Htg.
  - destruct (py_int _) as [z|e]; [|discriminate].
    injection Hgen as <-.
    do 2 eexists; repeat split;
      cbn; try reflexivity;
      repeat match goal with |- context [if ?b then _ else _] => destruct b end; reflexivity.
  - injection Hgen as <-.
    do 2 eexists; repeat split;
      cbn; try reflexivity;
      repeat match goal with |- context [if ?b then _ else _] => destruct b end; reflexivity.
Qed.

Lemma C4_witness :
  exists doc, generate_alertmanager_config cfg_channels = Ok doc /\
  exists crit warn,
    find_receiver doc "critical" = Some crit /\ find_receiver doc "warning" = Some warn /\
    has_channel (rc_pagerduty crit) = true /\ has_channel (rc_pagerduty warn) = false /\
    has_channel (rc_telegram warn) = true /\ has_channel (rc_discord warn) = true.
Proof.
  assert (H : generate_alertmanager_config cfg_channels =
              Ok (routing_of cfg_channels (Some (VStr "123:abc", (-1001)%Z))))
    by (vm_compute; reflexivity).
  exists (routing_of cfg_channels (Some (VStr "123:abc", (-1001)%Z))); split; [exact H|].
  destruct (C4_receiver_channels _ _ H) as (crit & warn & H1 & H2 & H3 & H4 & H5 & H6 & H7 & H8).
  exists crit, warn; repeat split; auto.
Defined.

(** C5: when the telegram bot token and chat id are both present but
    [int(chat_id)] fails, generating the routing document fails; it does not
    produce a document without the Telegram channel. *)
Theorem C5_non_numeric_chat_id_fails (config : pydict) (e0 : pyexc)
  (Htok : truthy (credential config "telegram" "bot_token") = true)
  (Hcid : truthy (credential config "telegram" "chat_id") = true)
  (Hint : py_int (credential config "telegram" "chat_id") = Err e0) :
  exists e, generate_alertmanager_config config = Err e.
Proof.
  rewrite generate_alertmanager_config_spec.
  destruct (sections_ok config); cbv zeta.
  - rewrite Htok, Hcid, Hint; cbn. eauto.
  - eauto.
Qed.

Lemma C5_witness :
  truthy (credential cfg_bad_chat_id "telegram" "bot_token") = true /\
  py_int (credential cfg_bad_chat_id "telegram" "chat_id") = Err (ValueErrorInt "my-chat") /\
  exists e, generate_alertmanager_config cfg_bad_chat_id = Err e.
Proof.
  split; [vm_compute; reflexivity|].
  split; [vm_compute; reflexivity|].
  apply (C5_non_numeric_chat_id_fails cfg_bad_chat_id (ValueErrorInt "my-chat"));
    vm_compute; reflexivity.
Defined.

(** C10: with the notification sections dictionaries (or absent), a
    credential equal to the empty string is treated as absent: an empty
    integration key or webhook url leaves its channel out of every receiver,
    an empty bot token or chat id yields a document without any Telegram
    channel (no failure), and generation fails only when bot token and chat
    id are both non-empty and [int(chat_id)] fails. *)
Theorem C10_empty_credentials_absent (config : pydict)
  (Hsec : sections_ok config = true) :
  (credential config "pagerduty" "integration_key" = VStr "" ->
     forall doc, generate_alertmanager_config config = Ok doc ->
     Forall (fun r => rc_pagerduty r = None) (rd_receivers doc)) /\
  (credential config "discord" "webhook_url" = VStr "" ->
     forall doc, generate_alertmanager_config config = Ok doc ->
     Forall (fun r => rc_discord r = None) (rd_receivers doc)) /\
  (credential config "telegram" "bot_token" = VStr "" \/
   credential config "telegram" "chat_id" = VStr "" ->
     exists doc, generate_alertmanager_config config = Ok doc /\
     Forall (fun r => rc_telegram r = None) (rd_receivers doc)) /\
  (forall e, generate_alertmanager_config config = Err e ->
     truthy (credential config "telegram" "bot_token") = true /\
     truthy (credential config "telegram" "chat_id") = true /\
     py_int (credential config "telegram" "chat_id") = Err e).
Proof.
  rewrite generate_alertmanager_config_spec, Hsec; cbv zeta.
  split; [|split; [|split]].
  - intros Hpk doc Hgen.
    destruct (_ && _); [destruct (py_int _); [|discriminate]|];
      injection Hgen as <-; cbn; rewrite Hpk; cbn; repeat constructor.
  - intros Hurl doc Hgen.
    destruct (_ && _); [destruct (py_int _); [|discriminate]|];
      injection Hgen as <-; cbn; rewrite Hurl; cbn; repeat constructor.
  - intros Hempty.
    assert (Hf : truthy (credential config "telegram" "bot_token") &&
                 truthy (credential config "telegram" "chat_id") = false).
    { destruct Hempty as [E|E]; rewrite E; cbn; [reflexivity | apply andb_false_r]. }
    rewrite Hf. eexists; split; [reflexivity|]. cbn; repeat constructor.
  - intros e1 Hgen.
    destruct (truthy (credential config "telegram" "bot_token")) eqn:Ht;
      destruct (truthy (credential config "telegram" "chat_id")) eqn:Hc;
      cbn in Hgen; try discriminate.
    destruct (py_int _); [discriminate|].
    injection Hgen as <-; auto.
Qed.

Lemma C10_witness :
  sections_ok cfg_empty_credentials = true /\
  exists doc, generate_alertmanager_config cfg_empty_credentials = Ok doc /\
  Forall (fun r => rc_telegram r = None) (rd_receivers doc).
Proof.
  split; [reflexivity|].
  destruct (C10_empty_credentials_absent cfg_empty_credentials eq_refl) as (_ & _ & H & _).
  apply H. right. vm_compute. reflexivity.
Defined.

(** ** Scheme stripping *)

Lemma substring_whole (s : string) : substring 0 (String.length s) s = s.
Proof. induction s as [|c s IH]; cbn; [reflexivity | now rewrite IH]. Qed.

Lemma prefix_split (p x : string) :
  String.prefix p x = true ->
  x = p ++ substring (String.length p) (String.length x - String.length p) x.
Proof.
  revert x; induction p as [|c p IH]; intros [|c' x] H; cbn in *.
  - reflexivity.
  - now rewrite substring_whole.
  - discriminate.
  - destruct (ascii_dec c c') as [<-|]; [|discriminate].
    f_equal. now apply IH.
Qed.

(** C7 (as amended): reconstructing [scheme ++ "://" ++ clean_target]
    gives the canonical form of the target; re-stripping a clean target
    that has no scheme prefix of its own returns it unchanged with the
    default scheme [http]; stripping is idempotent on targets without a
    scheme prefix; and it is not idempotent on an [https] target whose
    clean target has no scheme prefix of its own: the first strip reports
    [https], the second [http]. *)
Theorem C7_strip_scheme_amended (x : string) :
  fst (strip_scheme x) ++ "://" ++ snd (strip_scheme x) = canonical_target x /\
  (String.prefix "https://" (snd (strip_scheme x)) = false ->
   String.prefix "http://" (snd (strip_scheme x)) = false ->
   strip_scheme (snd (strip_scheme x)) = ("http", snd (strip_scheme x))) /\
  (String.prefix "https://" x = false -> String.prefix "http://" x = false ->
   strip_scheme (snd (strip_scheme x)) = strip_scheme x) /\
  (String.prefix "https://" x = true ->
   String.prefix "https://" (snd (strip_scheme x)) = false ->
   String.prefix "http://" (snd (strip_scheme x)) = false ->
   strip_scheme (snd (strip_scheme x)) = ("http", snd (strip_scheme x)) /\
   fst (strip_scheme x) = "https").
Proof.
  unfold canonical_target.
  assert (Hre : forall y, String.prefix "https://" y = false ->
                String.prefix "http://" y = false -> strip_scheme y = ("http", y)).
  { intros y H1 H2. unfold strip_scheme. now rewrite H1, H2. }
  destruct (String.prefix "https://" x) eqn:E1;
    [|destruct (String.prefix "http://" x) eqn:E2]; cbn [orb].
  - assert (Hs : strip_scheme x = ("https", substring 8 (String.length x - 8) x))
      by (unfold strip_scheme; now rewrite E1).
    rewrite Hs; cbn [fst snd]. apply prefix_split in E1.
    split; [|split; [|split]].
    + symmetry. exact E1.
    + apply Hre.
    + discriminate.
    + intros _ H1 H2. split; [apply Hre; assumption | reflexivity].
  - assert (Hs : strip_scheme x = ("http", substring 7 (String.length x - 7) x))
      by (unfold strip_scheme; now rewrite E1, E2).
    rewrite Hs; cbn [fst snd]. apply prefix_split in E2.
    split; [|split; [|split]].
    + symmetry. exact E2.
    + apply Hre.
    + discriminate.
    + discriminate.
  - rewrite (Hre x E1 E2); cbn [fst snd].
    split; [reflexivity | split; [apply Hre | split; [intros; apply Hre; assumption | discriminate]]].
Qed.

Lemma C7_witness :
  fst (strip_scheme "10.0.0.1:9100") ++ "://" ++ snd (strip_scheme "10.0.0.1:9100")
    = canonical_target "10.0.0.1:9100" /\
  strip_scheme (snd (strip_scheme "10.0.0.1:9100")) = strip_scheme "10.0.0.1:9100" /\
  (strip_scheme (snd (strip_scheme "https://10.0.0.1:9100")) =
     ("http", snd (strip_scheme "https://10.0.0.1:9100")) /\
   fst (strip_scheme "https://10.0.0.1:9100") = "https").
Proof.
  destruct (C7_strip_scheme_amended "10.0.0.1:9100") as (H1 & _ & H3 & _).
  destruct (C7_strip_scheme_amended "https://10.0.0.1:9100") as (_ & _ & _ & H4).
  split; [exact H1|]. split; [apply H3; reflexivity|].
  apply H4; vm_compute; reflexivity.
Defined.

(** C7 counterexample: for ["https://10.0.0.1:9100"] the first strip gives
    [("https", "10.0.0.1:9100")], stripping its clean target again gives
    [("http", "10.0.0.1:9100")]. *)
Lemma C7_counterexample :
  strip_scheme "https://10.0.0.1:9100" = ("https", "10.0.0.1:9100") /\
  strip_scheme (snd (strip_scheme "https://10.0.0.1:9100")) = ("http", "10.0.0.1:9100") /\
  strip_scheme (snd (strip_scheme "https://10.0.0.1:9100")) <> strip_scheme "https://10.0.0.1:9100".
Proof.
  split; [vm_compute; reflexivity|].
  split; [vm_compute; reflexivity|].
  vm_compute. discriminate.
Qed.

(** ** Validation *)

Lemma dget_dset_same (d : pydict) (k : string) (v : pyval) :
  dget (dset d k v) k = Some v.
Proof.
  induction d as [|[k' v'] t IH]; cbn.
  - now rewrite String.eqb_refl.
  - destruct (String.eqb k k') eqn:E; cbn; rewrite E; [reflexivity | exact IH].
Qed.

Lemma dget_dset_other (d : pydict) (k k' : string) (v : pyval) :
  k <> k' -> dget (dset d k v) k' = dget d k'.
Proof.
  intros Hne. induction d as [|[k0 v0] t IH]; cbn.
  - apply String.eqb_neq in Hne. rewrite String.eqb_sym, Hne. reflexivity.
  - destruct (String.eqb k k0) eqn:E; cbn.
    + apply String.eqb_eq in E; subst k0.
      apply String.eqb_neq in Hne. rewrite String.eqb_sym, Hne. reflexivity.
    + destruct (String.eqb k' k0); [reflexivity | exact IH].
Qed.

Lemma validate_entry_frame (kind : entity_kind) (i : nat) (e e' : pyval) :
  validate_entry kind i e = Ok e' -> completes_alerts_only kind e e'.
Proof.
  destruct e as [| | | | |r]; cbn; try discriminate.
  destruct (check_required kind i (required_fields kind) r) as [[]|er]; cbn; [|discriminate].
  destruct (dget r "alerts") as [a|] eqn:Ea.
  - destruct (validate_alerts_config kind a i) as [[]|er]; cbn; [|discriminate].
    intros H; injection H as <-.
    exists r, r; repeat split; auto.
    intros Hn; congruence.
  - intros H; injection H as <-.
    exists r, (dset r "alerts" (default_alerts kind)); repeat split; auto.
    + intros k Hk. apply dget_dset_other. congruence.
    + intros a Ha; congruence.
Qed.

Lemma validate_entries_frame (kind : entity_kind) (es : list pyval) :
  forall i es', validate_entries kind i es = Ok es' ->
  Forall2 (completes_alerts_only kind) es es'.
Proof.
  induction es as [|e t IH]; intros i es' H; cbn in H.
  - injection H as <-. constructor.
  - destruct (validate_entry kind i e) as [e'|er] eqn:He; cbn in H; [|discriminate].
    destruct (validate_entries kind (S i) t) as [t'|er] eqn:Ht; cbn in H; [|discriminate].
    injection H as <-. constructor.
    + now apply (validate_entry_frame kind i).
    + now apply (IH (S i)).
Qed.

(** C9: when validation accepts an entity list, each entity is changed
    only by completing its [alerts] field: every other field keeps its value,
    an entity that has an [alerts] field is left exactly as it was, and one
    without gets the default map. *)
Theorem C9_validation_frame (kind : entity_kind) (v : pyval) (es' : list pyval)
  (Hok : validate_entities_config kind v = Ok es') :
  exists es, v = VList es /\ Forall2 (completes_alerts_only kind) es es'.
Proof.
  destruct v as [| | | |es|]; cbn in Hok; try discriminate.
  exists es; split; [reflexivity|].
  exact (validate_entries_frame kind es 0 es' Hok).
Qed.

Lemma C9_witness :
  exists es', validate_bridges_config
    (VList [VDict [("alias", VStr "Alpha"); ("target", VStr "http://10.0.0.1:9100");
                   ("public_address", VStr "https://alpha.example.com")]]) = Ok es' /\
  exists es, VList [VDict [("alias", VStr "Alpha"); ("target", VStr "http://10.0.0.1:9100");
                   ("public_address", VStr "https://alpha.example.com")]] = VList es /\
  Forall2 (completes_alerts_only Bridge) es es'.
Proof.
  eexists. split; [vm_compute; reflexivity|].
  apply (C9_validation_frame Bridge). vm_compute. reflexivity.
Defined.

(** C6: an entity that passes the required-field checks and has no
    [alerts] key is accepted, and its [alerts] becomes the catalogue's
    default map for its kind: every valid alert key, mapped to [True]. *)
Theorem C6_absent_alerts_default (kind : entity_kind) (i : nat) (r : pydict)
  (Hreq : check_required kind i (required_fields kind) r = Ok tt)
  (Hnone : dget r "alerts" = None) :
  validate_entry kind i (VDict r) = Ok (VDict (dset r "alerts" (default_alerts kind))) /\
  dget (dset r "alerts" (default_alerts kind)) "alerts" =
    Some (VDict (map (fun k => (k, VBool true)) (valid_alert_types kind))).
Proof.
  split.
  - cbn. rewrite Hreq. cbn. rewrite Hnone. reflexivity.
  - rewrite dget_dset_same. destruct kind; reflexivity.
Qed.

Lemma C6_witness :
  validate_entry Validator 0 (VDict [("alias", VStr "V1"); ("target", VStr "10.0.0.2:9184")]) =
    Ok (VDict [("alias", VStr "V1"); ("target", VStr "10.0.0.2:9184");
               ("alerts", get_default_validator_alerts)]) /\
  dget (dset [("alias", VStr "V1"); ("target", VStr "10.0.0.2:9184")] "alerts"
          (default_alerts Validator)) "alerts" =
    Some (VDict (map (fun k => (k, VBool true)) (valid_alert_types Validator))).
Proof.
  apply (C6_absent_alerts_default Validator 0); reflexivity.
Defined.

Lemma check_alert_items_err (kind : entity_kind) (i : nat) (items : pydict) :
  (exists e, check_alert_items kind i items = Err e) <-> bad_alert_item kind items.
Proof.
  unfold bad_alert_item.
  induction items as [|[k v] t IH]; cbn.
  - split; [intros [e H]; discriminate | intros (k & v & [] & _)].
  - destruct (mem_string k (valid_alert_types kind)) eqn:Hm;
      [destruct (is_bool v) eqn:Hb|]; cbn.
    + rewrite IH. split.
      * intros (k' & v' & Hin & Hbad). exists k', v'. auto.
      * intros (k' & v' & [Heq|Hin] & Hbad); [|eauto].
        injection Heq as <- <-. destruct Hbad; congruence.
    + split; [intros _ | eauto]. exists k, v. auto.
    + split; [intros _ | eauto]. exists k, v. auto.
Qed.

Lemma check_required_err (kind : entity_kind) (i : nat) (fields : list string) (r : pydict) :
  (exists e, check_required kind i fields r = Err e) <->
  exists f, In f fields /\ field_missing_or_empty r f.
Proof.
  unfold field_missing_or_empty.
  induction fields as [|f fs IH]; cbn.
  - split; [intros [e H]; discriminate | intros (f & [] & _)].
  - destruct (dget r f) as [v|] eqn:Hf; [destruct (truthy v) eqn:Ht|].
    + rewrite IH. split.
      * intros (f' & Hin & Hbad). eauto.
      * intros (f' & [<-|Hin] & Hbad); [|eauto].
        destruct Hbad as [Hn | (v' & Hv & Hv')]; [congruence|].
        rewrite Hf in Hv. injection Hv as <-. congruence.
    + split; [intros _ | eauto]. exists f. split; [auto|]. right. eauto.
    + split; [intros _ | eauto]. exists f. auto.
Qed.

Lemma validate_entry_err (kind : entity_kind) (i : nat) (e : pyval) :
  (exists err, validate_entry kind i e = Err err) <-> entry_bad kind e.
Proof.
  destruct e as [| | | | |r]; cbn; try (split; [intros _; exact I | eexists; reflexivity]).
  destruct (check_required kind i (required_fields kind) r) as [[]|er] eqn:Hc; cbn.
  - assert (Hreq : ~ exists f, In f (required_fields kind) /\ field_missing_or_empty r f).
    { rewrite <- (check_required_err kind i). intros [er H]. congruence. }
    destruct (dget r "alerts") as [a|] eqn:Ea.
    + destruct a as [| | | | |items]; cbn;
        try (split; [intros _; right; eexists; split; [reflexivity | exact I]
                    | eexists; reflexivity]).
      destruct (check_alert_items kind i items) as [[]|er] eqn:Hi; cbn.
      * split; [intros [er H]; discriminate|].
        intros [Hbad | (a & Ha & Hbad)]; [contradiction|].
        injection Ha as <-. apply (check_alert_items_err kind i) in Hbad.
        destruct Hbad as [er Her]. congruence.
      * split; [intros _ | eauto].
        right. exists (VDict items). split; [reflexivity|].
        apply (check_alert_items_err kind i). eauto.
    + split; [intros [er H]; discriminate|].
      intros [Hbad | (a & Ha & _)]; [contradiction | discriminate].
  - split; [intros _ | eauto].
    left. apply (check_required_err kind i). eauto.
Qed.

Lemma validate_entries_err (kind : entity_kind) (es : list pyval) :
  forall i, (exists e, validate_entries kind i es = Err e) <-> Exists (entry_bad kind) es.
Proof.
  induction es as [|e t IH]; intros i; cbn.
  - split; [intros [er H]; discriminate | intros H; inversion H].
  - destruct (validate_entry kind i e) as [e'|er] eqn:He; cbn.
    + assert (Hgood : ~ entry_bad kind e).
      { rewrite <- (validate_entry_err kind i). intros [er H]. congruence. }
      rewrite Exists_cons.
      destruct (validate_entries kind (S i) t) as [t'|er] eqn:Ht; cbn.
      * split; [intros [er H]; discriminate|].
        intros [Hb | Hb]; [contradiction|].
        apply (IH (S i)) in Hb. destruct Hb as [er Her]. congruence.
      * split; [intros _ | eauto].
        right. apply (IH (S i)). eauto.
    + split; [intros _ | eauto].
      apply Exists_cons_hd. apply (validate_entry_err kind i). eauto.
Qed.

(** C8 (as amended): validating an entity list fails exactly when the input
    is not a list, or some entity is not a dictionary, misses a required
    field or has it empty, has an [alerts] value that is not a dictionary,
    or has an [alerts] entry whose key is not a valid alert type or whose
    value is not a boolean. *)
Theorem C8_validation_failure_iff (kind : entity_kind) (v : pyval) :
  (exists e, validate_entities_config kind v = Err e) <->
  match v with VList es => Exists (entry_bad kind) es | _ => True end.
Proof.
  destruct v as [| | | |es|]; cbn;
    try (split; [intros _; exact I | eexists; reflexivity]).
  apply validate_entries_err.
Qed.

(** C8 counterexample: a bridge with all required fields set and
    [alerts: null] meets none of the listed conditions, yet validation
    fails ("alerts must be a dictionary"). *)
Lemma C8_counterexample :
  validate_bridges_config (VList [VDict bridge_alerts_null]) =
    Err (ValueError (AlertsNotDict Bridge 0)) /\
  ~ Exists (spec_entry_bad Bridge) [VDict bridge_alerts_null].
Proof.
  split; [vm_compute; reflexivity|].
  intros H. inversion H as [? ? Hb | ? ? Hb]; subst.
  - destruct Hb as [(f & Hin & Hm) | (items & Ha & _)].
    + cbn in Hin. destruct Hin as [<-|[<-|[<-|[]]]];
        destruct Hm as [Hm | (v & Hv & Ht)]; cbn in *; try discriminate;
        injection Hv as <-; discriminate.
    + cbn in Ha. discriminate.
  - inversion Hb.
Qed.

(** ** Rule generation *)

Lemma map_nil_seq (s n : nat) : map (fun _ : nat => @nil rule) (seq s n) = repeat [] n.
Proof. revert s; induction n as [|n IH]; intros s; cbn; [reflexivity | now rewrite IH]. Qed.

Lemma update_nth_map_seq (f : list rule -> list rule) (g : nat -> list rule) :
  forall n s k, update_nth k f (map g (seq s n)) =
    map (fun c => if Nat.eqb c (s + k) then f (g c) else g c) (seq s n).
Proof.
  induction n as [|n IH]; intros s k; cbn; [destruct k; reflexivity|].
  destruct k as [|k]; cbn.
  - rewrite Nat.add_0_r, Nat.eqb_refl. f_equal.
    apply map_ext_in. intros c Hc. apply in_seq in Hc.
    destruct (Nat.eqb_spec c s); [lia | reflexivity].
  - replace (Nat.eqb s (s + S k)) with false by (symmetry; apply Nat.eqb_neq; lia).
    replace (s + S k) with (S s + k) by lia.
    f_equal. apply IH.
Qed.

Lemma bucket_snoc (ts : list template) (t : template) (alerts : pydict) (i : nat)
  (alias : string) (c : nat) :
  bucket (ts ++ [t]) alerts i alias c =
  (bucket ts alerts i alias c ++
    (if Nat.eqb (t_cat t) c && enabled alerts (t_key t) then [t_build t i alias] else []))%list.
Proof.
  unfold bucket. rewrite filter_app, map_app. f_equal.
  cbn. destruct (Nat.eqb (t_cat t) c && enabled alerts (t_key t)); reflexivity.
Qed.

Lemma run_block_bucket (ts : list template) (alerts : pydict) (i : nat) (alias : string)
  (n : nat) (t : template) :
  t_cat t < n ->
  run_block alerts i alias (map (bucket ts alerts i alias) (seq 0 n)) t =
  map (bucket (ts ++ [t])%list alerts i alias) (seq 0 n).
Proof.
  intros Ht. unfold run_block.
  destruct (enabled alerts (t_key t)) eqn:He.
  - rewrite update_nth_map_seq. apply map_ext_in. intros c Hc.
    rewrite bucket_snoc, He, andb_true_r. cbn [Nat.add].
    rewrite (Nat.eqb_sym (t_cat t) c).
    destruct (Nat.eqb c (t_cat t)); [reflexivity | now rewrite app_nil_r].
  - apply map_ext. intros c.
    rewrite bucket_snoc, He, andb_false_r, app_nil_r. reflexivity.
Qed.

Lemma fold_run_block (ts : list template) (alerts : pydict) (i : nat) (alias : string) (n : nat) :
  forall acc, Forall (fun t => t_cat t < n) ts ->
  fold_left (run_block alerts i alias) ts (map (bucket acc alerts i alias) (seq 0 n)) =
  map (bucket (acc ++ ts)%list alerts i alias) (seq 0 n).
Proof.
  induction ts as [|t ts IH]; intros acc Hf; cbn.
  - now rewrite app_nil_r.
  - inversion Hf as [|? ? Ht Hts]; subst.
    rewrite run_block_bucket by exact Ht.
    rewrite IH by exact Hts.
    now rewrite <- app_assoc.
Qed.

Lemma run_blocks_buckets (n : nat) (ts : list template) (alerts : pydict) (i : nat)
  (alias : string) :
  Forall (fun t => t_cat t < n) ts ->
  run_blocks n ts alerts i alias = map (bucket ts alerts i alias) (seq 0 n).
Proof.
  intros Hf. unfold run_blocks.
  rewrite <- (map_nil_seq 0 n).
  change (map (fun _ : nat => @nil rule) (seq 0 n)) with (map (bucket [] alerts i alias) (seq 0 n)).
  exact (fold_run_block ts alerts i alias n [] Hf).
Qed.

Lemma file_rules_emit (names : list string) (cats : list (list rule)) :
  length cats <= length names -> file_rules (emit_groups names cats) = concat cats.
Proof.
  unfold file_rules.
  revert names; induction cats as [|c cs IH]; intros [|n ns] Hl; cbn in *; try lia; try reflexivity.
  destruct c as [|r rs]; cbn.
  - apply IH. lia.
  - f_equal. f_equal. apply IH. lia.
Qed.

Lemma bridge_templates_cat : Forall (fun t => t_cat t < 3) bridge_templates.
Proof. unfold bridge_templates. repeat (apply Forall_cons; [cbn; lia|]). apply Forall_nil. Qed.

Lemma validator_templates_cat (sv : string) : Forall (fun t => t_cat t < 2) (validator_templates sv).
Proof. unfold validator_templates. repeat (apply Forall_cons; [cbn; lia|]). apply Forall_nil. Qed.

Lemma bridge_templates_alert_type :
  Forall (fun t => forall j a, alert_type (t_build t j a) = Some (t_key t)) bridge_templates.
Proof.
  unfold bridge_templates. repeat (apply Forall_cons; [intros; reflexivity|]). apply Forall_nil.
Qed.

Lemma validator_templates_alert_type (sv : string) :
  Forall (fun t => forall j a, alert_type (t_build t j a) = Some (t_key t)) (validator_templates sv).
Proof.
  unfold validator_templates. repeat (apply Forall_cons; [intros; reflexivity|]). apply Forall_nil.
Qed.

Lemma bucket_alert_types (ts : list template) (alerts : pydict) (i : nat) (alias : string) (c : nat) :
  Forall (fun t => forall j a, alert_type (t_build t j a) = Some (t_key t)) ts ->
  map alert_type (bucket ts alerts i alias c) =
  map Some (filter (enabled alerts) (map t_key (filter (fun t => Nat.eqb (t_cat t) c) ts))).
Proof.
  unfold bucket. induction ts as [|t ts IH]; intros Hf; cbn; [reflexivity|].
  inversion Hf as [|? ? Ht Hts]; subst.
  destruct (Nat.eqb (t_cat t) c); cbn.
  - destruct (enabled alerts (t_key t)); cbn; [rewrite Ht; f_equal|]; apply IH; exact Hts.
  - apply IH; exact Hts.
Qed.

Lemma in_concat_buckets (r : rule) (ts : list template) (alerts : pydict) (i : nat)
  (alias : string) (cs : list nat) :
  In r (concat (map (bucket ts alerts i alias) cs)) ->
  exists t, In t ts /\ enabled alerts (t_key t) = true /\ r = t_build t i alias.
Proof.
  intros H. apply in_concat in H. destruct H as (b & Hb & Hr).
  apply in_map_iff in Hb. destruct Hb as (c & <- & _).
  unfold bucket in Hr. apply in_map_iff in Hr. destruct Hr as (t & <- & Ht).
  apply filter_In in Ht. destruct Ht as [Ht He]. apply andb_prop in He.
  exists t. tauto.
Qed.

Lemma bridge_rules_concat (i : nat) (alias : string) (alerts : pydict) :
  file_rules (bridge_rules_for i alias alerts) =
  concat (map (bucket bridge_templates alerts i alias) (seq 0 3)).
Proof.
  unfold bridge_rules_for. rewrite run_blocks_buckets by exact bridge_templates_cat.
  apply file_rules_emit. cbn. lia.
Qed.

Lemma validator_rules_concat (sv : string) (i : nat) (alias : string) (alerts : pydict) :
  file_rules (validator_rules_for sv i alias alerts) =
  concat (map (bucket (validator_templates sv) alerts i alias) (seq 0 2)).
Proof.
  unfold validator_rules_for. rewrite run_blocks_buckets by exact (validator_templates_cat sv).
  apply file_rules_emit. cbn. lia.
Qed.

Lemma entity_rules_types (kind : entity_kind) (sv : string) (i : nat) (alias : string)
  (alerts : pydict) :
  map alert_type (file_rules (entity_rules kind sv i alias alerts)) =
  map Some (filter (enabled alerts) (emission_order kind)).
Proof.
  destruct kind; cbn [entity_rules emission_order].
  - rewrite bridge_rules_concat. cbn [seq map concat]. rewrite app_nil_r, !map_app.
    rewrite !bucket_alert_types by exact bridge_templates_alert_type.
    rewrite <- !map_app, <- !filter_app. reflexivity.
  - rewrite validator_rules_concat. cbn [seq map concat]. rewrite app_nil_r, !map_app.
    rewrite !bucket_alert_types by exact (validator_templates_alert_type sv).
    rewrite <- !map_app, <- !filter_app. reflexivity.
Qed.

Lemma entity_rules_in (kind : entity_kind) (sv : string) (i : nat) (alias : string)
  (alerts : pydict) (r : rule) :
  In r (file_rules (entity_rules kind sv i alias alerts)) ->
  exists t, In t (match kind with Bridge => bridge_templates | Validator => validator_templates sv end)
    /\ enabled alerts (t_key t) = true /\ r = t_build t i alias.
Proof.
  destruct kind; cbn [entity_rules].
  - rewrite bridge_rules_concat. apply in_concat_buckets.
  - rewrite validator_rules_concat. apply in_concat_buckets.
Qed.

Lemma run_blocks_ext (n : nat) (ts : list template) (a a' : pydict) (i : nat) (alias : string) :
  (forall k, dget a' k = dget a k) -> run_blocks n ts a' i alias = run_blocks n ts a i alias.
Proof.
  intros H. unfold run_blocks. generalize (repeat (@nil rule) n).
  induction ts as [|t ts IH]; intros acc; cbn; [reflexivity|].
  rewrite IH. f_equal. unfold run_block, enabled, dget_default. now rewrite H.
Qed.

Lemma entity_rules_ext (kind : entity_kind) (sv : string) (i : nat) (alias : string) (a a' : pydict) :
  (forall k, dget a' k = dget a k) -> entity_rules kind sv i alias a' = entity_rules kind sv i alias a.
Proof.
  intros H. destruct kind; cbn [entity_rules].
  - unfold bridge_rules_for. now rewrite (run_blocks_ext 3 bridge_templates a a').
  - unfold validator_rules_for. now rewrite (run_blocks_ext 2 (validator_templates sv) a a').
Qed.

(** ** Dictionaries with distinct keys *)

Lemma mem_string_In (k : string) (l : list string) : mem_string k l = true <-> In k l.
Proof.
  induction l as [|x l IH]; cbn; [split; [discriminate | tauto]|].
  destruct (String.eqb_spec k x) as [->|Hne]; cbn.
  - tauto.
  - rewrite IH. split; [tauto|]. intros [->|H]; [congruence | exact H].
Qed.

Lemma nodupb_NoDup (l : list string) : nodupb l = true -> NoDup l.
Proof.
  induction l as [|x l IH]; cbn; intros H; [constructor|].
  apply andb_prop in H. destruct H as [Hx Hl]. constructor; [|exact (IH Hl)].
  intros Hin. apply mem_string_In in Hin. rewrite Hin in Hx. discriminate.
Qed.

Lemma dget_In_iff (l : pydict) (k : string) (v : pyval) :
  NoDup (map fst l) -> (dget l k = Some v <-> In (k, v) l).
Proof.
  induction l as [|[k0 v0] l IH]; cbn; intros Hnd; [split; [discriminate | tauto]|].
  inversion Hnd as [|? ? Hk0 Hnd']; subst.
  destruct (String.eqb_spec k k0) as [->|Hne].
  - split.
    + intros H. injection H as <-. now left.
    + intros [H|H]; [injection H as <-; reflexivity|].
      exfalso. apply Hk0. apply in_map_iff. exists (k0, v). auto.
  - rewrite (IH Hnd'). split; [tauto|]. intros [H|H]; [injection H; congruence | exact H].
Qed.

Lemma NoDup_map_fst_filter (f : string * pyval -> bool) (l : pydict) :
  NoDup (map fst l) -> NoDup (map fst (filter f l)).
Proof.
  induction l as [|x l IH]; cbn; intros Hnd; [constructor|].
  inversion Hnd as [|? ? Hx Hnd']; subst.
  destruct (f x); cbn; [constructor|]; auto.
  intros Hin. apply Hx. apply in_map_iff in Hin. destruct Hin as (y & Hy & Hin).
  apply filter_In in Hin. apply in_map_iff. exists y. tauto.
Qed.

Lemma dget_perm (a a' : pydict) :
  Permutation a' a -> NoDup (map fst a) -> forall k, dget a' k = dget a k.
Proof.
  intros Hp Hnd k.
  assert (Hnd' : NoDup (map fst a')).
  { apply (Permutation_NoDup (l := map fst a)); [|exact Hnd].
    apply Permutation_map. symmetry. exact Hp. }
  destruct (dget a' k) as [v|] eqn:E1, (dget a k) as [w|] eqn:E2.
  - apply (dget_In_iff a' k v Hnd') in E1. apply (Permutation_in _ Hp) in E1.
    apply (dget_In_iff a k v Hnd) in E1. congruence.
  - apply (dget_In_iff a' k v Hnd') in E1. apply (Permutation_in _ Hp) in E1.
    apply (dget_In_iff a k v Hnd) in E1. congruence.
  - apply (dget_In_iff a k w Hnd) in E2. apply (Permutation_in _ (Permutation_sym Hp)) in E2.
    apply (dget_In_iff a' k w Hnd') in E2. congruence.
  - reflexivity.
Qed.

Lemma check_alert_items_ok (kind : entity_kind) (i : nat) (items : pydict) :
  check_alert_items kind i items = Ok tt ->
  forall k v, In (k, v) items -> mem_string k (valid_alert_types kind) = true.
Proof.
  induction items as [|[k0 v0] t IH]; cbn; intros H k v Hin; [destruct Hin|].
  destruct (mem_string k0 (valid_alert_types kind)) eqn:Hm; cbn in H; [|discriminate].
  destruct (is_bool v0); cbn in H; [|discriminate].
  destruct Hin as [Heq|Hin]; [injection Heq as <- <-; exact Hm | exact (IH H k v Hin)].
Qed.

Lemma emission_order_In (kind : entity_kind) (k : string) :
  In k (emission_order kind) <-> In k (valid_alert_types kind).
Proof.
  destruct kind; cbn [emission_order valid_alert_types]; [tauto|].
  split; intros H; apply mem_string_In.
  - repeat (destruct H as [<-|H]; [reflexivity|]); destruct H.
  - repeat (destruct H as [<-|H]; [reflexivity|]); destruct H.
Qed.

Lemma emission_order_NoDup (kind : entity_kind) : NoDup (emission_order kind).
Proof. apply nodupb_NoDup. destruct kind; reflexivity. Qed.

(** With a validated map, the keys the blocks find enabled are exactly the
    keys the map sends to [True]. *)
Lemma enabled_count (kind : entity_kind) (i : nat) (alerts : pydict) :
  check_alert_items kind i alerts = Ok tt -> NoDup (map fst alerts) ->
  length (filter (enabled alerts) (emission_order kind)) =
  length (filter (fun kv => truthy (snd kv)) alerts).
Proof.
  intros Hvalid Hnd.
  rewrite <- (length_map fst (filter (fun kv => truthy (snd kv)) alerts)).
  apply Permutation_length. apply NoDup_Permutation.
  - apply NoDup_filter. apply emission_order_NoDup.
  - apply NoDup_map_fst_filter. exact Hnd.
  - intros k. rewrite filter_In. split.
    + intros [_ Hen]. unfold enabled, dget_default in Hen.
      destruct (dget alerts k) as [v|] eqn:Hd; [|discriminate].
      apply in_map_iff. exists (k, v). split; [reflexivity|].
      apply filter_In. split; [apply (dget_In_iff alerts k v Hnd); exact Hd | exact Hen].
    + intros Hin. apply in_map_iff in Hin. destruct Hin as ([k' v] & Hk & Hin). cbn in Hk. subst k'.
      apply filter_In in Hin. destruct Hin as [Hin Hv]. cbn in Hv. split.
      * apply emission_order_In. apply mem_string_In.
        exact (check_alert_items_ok kind i alerts Hvalid k v Hin).
      * unfold enabled, dget_default.
        rewrite (proj2 (dget_In_iff alerts k v Hnd) Hin). exact Hv.
Qed.

(** C2: when an entity's [alerts] map is present, validation returns the
    entity unchanged: keys absent from the map are not filled in with the
    catalogue defaults, and the generation blocks, which read the map with
    [alerts.get(key, False)], produce no rule for such a key. *)
Theorem C2_partial_alerts_not_completed (kind : entity_kind) (i : nat) (r items : pydict)
  (e' : pyval)
  (Halerts : dget r "alerts" = Some (VDict items))
  (Hok : validate_entry kind i (VDict r) = Ok e') :
  e' = VDict r /\
  forall sv j alias k, dget items k = None ->
    ~ In (Some k) (map alert_type (file_rules (entity_rules kind sv j alias items))).
Proof.
  split.
  - unfold validate_entry in Hok.
    destruct (check_required kind i (required_fields kind) r); cbn [bind] in Hok; [|discriminate].
    rewrite Halerts in Hok. cbn [validate_alerts_config bind] in Hok.
    destruct (check_alert_items kind i items); cbn [bind] in Hok; [congruence | discriminate].
  - intros sv j alias k Hk Hin.
    rewrite entity_rules_types in Hin.
    apply in_map_iff in Hin. destruct Hin as (k' & Heq & Hin). injection Heq as ->.
    apply filter_In in Hin. destruct Hin as [_ Hen].
    unfold enabled, dget_default in Hen. rewrite Hk in Hen. discriminate.
Qed.

Lemma C2_witness :
  dget (bridge_with_alerts [("uptime", VBool true)]) "alerts" = Some (VDict [("uptime", VBool true)]) /\
  validate_entry Bridge 0 (VDict (bridge_with_alerts [("uptime", VBool true)])) =
    Ok (VDict (bridge_with_alerts [("uptime", VBool true)])) /\
  (VDict (bridge_with_alerts [("uptime", VBool true)]) = VDict (bridge_with_alerts [("uptime", VBool true)]) /\
   forall sv j alias k, dget [("uptime", VBool true)] k = None ->
     ~ In (Some k) (map alert_type (file_rules (entity_rules Bridge sv j alias [("uptime", VBool true)])))).
Proof.
  split; [reflexivity|]. split; [vm_compute; reflexivity|].
  apply (C2_partial_alerts_not_completed Bridge 0 (bridge_with_alerts [("uptime", VBool true)])
           [("uptime", VBool true)] (VDict (bridge_with_alerts [("uptime", VBool true)])));
    vm_compute; reflexivity.
Defined.

(** C2 as stated fails: a bridge whose [alerts] map holds only [uptime]
    passes validation unchanged, and the run emits its [uptime] rule only;
    the other eleven keys, absent from the map, get no rule. *)
Lemma C2_counterexample :
  validate_bridges_config (VList [VDict (bridge_with_alerts [("uptime", VBool true)])]) =
    Ok [VDict (bridge_with_alerts [("uptime", VBool true)])] /\
  match main_run cfg_partial_alerts with
  | Ok art => map (fun gs => map alert_type (file_rules gs)) (art_bridge_rules art) = [[Some "uptime"]]
  | Err _ => False
  end.
Proof. split; vm_compute; reflexivity. Qed.

(** C3: for a validated alerts map (valid keys, boolean values, distinct
    keys), an entity's rule file holds one rule per key mapped to [True];
    the rules' alert types follow [emission_order]: the catalogue order for
    bridges, but for validators the critical alerts first and the warning
    alerts after them, each in catalogue order; and the groups do not
    depend on the order of the map's entries. *)
Theorem C3_rules_count_and_order (kind : entity_kind) (sv : string) (i : nat) (alias : string)
  (alerts : pydict)
  (Hvalid : check_alert_items kind i alerts = Ok tt)
  (Hdict : NoDup (map fst alerts)) :
  length (file_rules (entity_rules kind sv i alias alerts)) =
    length (filter (fun kv => truthy (snd kv)) alerts) /\
  map alert_type (file_rules (entity_rules kind sv i alias alerts)) =
    map Some (filter (enabled alerts) (emission_order kind)) /\
  (forall alerts', Permutation alerts' alerts ->
     entity_rules kind sv i alias alerts' = entity_rules kind sv i alias alerts).
Proof.
  split; [|split].
  - rewrite <- (length_map alert_type), entity_rules_types, length_map.
    exact (enabled_count kind i alerts Hvalid Hdict).
  - apply entity_rules_types.
  - intros alerts' Hp. apply entity_rules_ext. exact (dget_perm alerts alerts' Hp Hdict).
Qed.

Lemma C3_witness :
  check_alert_items Validator 0 three_alerts = Ok tt /\ NoDup (map fst three_alerts) /\
  (length (file_rules (entity_rules Validator "0xabc" 0 "V1" three_alerts)) =
     length (filter (fun kv => truthy (snd kv)) three_alerts) /\
   map alert_type (file_rules (entity_rules Validator "0xabc" 0 "V1" three_alerts)) =
     map Some (filter (enabled three_alerts) (emission_order Validator)) /\
   (forall alerts', Permutation alerts' three_alerts ->
      entity_rules Validator "0xabc" 0 "V1" alerts' = entity_rules Validator "0xabc" 0 "V1" three_alerts)).
Proof.
  split; [vm_compute; reflexivity|]. split; [apply nodupb_NoDup; vm_compute; reflexivity|].
  apply (C3_rules_count_and_order Validator "0xabc" 0 "V1" three_alerts);
    [vm_compute; reflexivity | apply nodupb_NoDup; vm_compute; reflexivity].
Defined.

(** C3 as stated fails for validators: with [uptime], [reputation_rank]
    and [voting_power] enabled, the rules come out as uptime, voting_power,
    reputation_rank, while the catalogue order restricted to these keys is
    uptime, reputation_rank, voting_power. *)
Lemma C3_counterexample :
  validate_validators_config (VList [VDict validator_three]) = Ok [VDict validator_three] /\
  map alert_type (file_rules (validator_rules_for "0xabc" 0 "V1" three_alerts)) =
    [Some "uptime"; Some "voting_power"; Some "reputation_rank"] /\
  map Some (filter (enabled three_alerts) validator_alert_types) =
    [Some "uptime"; Some "reputation_rank"; Some "voting_power"].
Proof. split; [|split]; vm_compute; reflexivity. Qed.

(** ** Authority substitution *)

Lemma prefix_app (n b : string) : String.prefix n (n ++ b) = true.
Proof.
  induction n as [|c n IH]; cbn; [destruct b; reflexivity|].
  destruct (Ascii.ascii_dec c c) as [_|Hne]; [exact IH | contradiction].
Qed.

Lemma is_sub_of_prefix (n h : string) : String.prefix n h = true -> is_sub n h = true.
Proof. intros H. destruct h; cbn [is_sub]; rewrite H; reflexivity. Qed.

Lemma is_sub_prefix (n b : string) : is_sub n (n ++ b) = true.
Proof. apply is_sub_of_prefix, prefix_app. Qed.

Lemma is_sub_app (n a h : string) : is_sub n h = true -> is_sub n (a ++ h) = true.
Proof.
  intros H. induction a as [|c a IH]; cbn [append]; [exact H|].
  cbn [is_sub]. rewrite IH. apply orb_true_r.
Qed.

Ltac find_sub := first [ apply is_sub_prefix | apply is_sub_app; find_sub ].

Lemma generate_alert_rules_from_shape (i : nat) (bs : list pyval) (gss : list (list group)) :
  generate_alert_rules_from i bs = Ok gss ->
  Forall (fun gs => exists j alias alerts, gs = bridge_rules_for j alias alerts) gss.
Proof.
  revert i gss; induction bs as [|b bs IH]; intros i gss H; cbn [generate_alert_rules_from] in H.
  - injection H as <-. constructor.
  - destruct (entity_alias_alerts get_default_alerts b) as [[alias alerts]|e]; cbn [bind] in H;
      [|discriminate].
    destruct (generate_alert_rules_from (S i) bs) as [rest|e] eqn:E; cbn [bind] in H; [|discriminate].
    injection H as <-. constructor; [eauto | exact (IH _ _ E)].
Qed.

Lemma generate_validator_alert_rules_from_shape (sv : string) (i : nat) (vs : list pyval)
  (gss : list (list group)) :
  generate_validator_alert_rules_from sv i vs = Ok gss ->
  Forall (fun gs => exists j alias alerts, gs = validator_rules_for sv j alias alerts) gss.
Proof.
  revert i gss; induction vs as [|v vs IH]; intros i gss H;
    cbn [generate_validator_alert_rules_from] in H.
  - injection H as <-. constructor.
  - destruct (entity_alias_alerts get_default_validator_alerts v) as [[alias alerts]|e];
      cbn [bind] in H; [|discriminate].
    destruct (generate_validator_alert_rules_from sv (S i) vs) as [rest|e] eqn:E; cbn [bind] in H;
      [|discriminate].
    injection H as <-. constructor; [eauto | exact (IH _ _ E)].
Qed.

(** What a successful run's rule files are made of. *)
Lemma main_run_rules (config : pydict) (art : artifacts) :
  main_run config = Ok art ->
  (exists bs, generate_alert_rules bs = Ok (art_bridge_rules art)) /\
  (art_validator_rules art = [] \/
   exists vs svv sv, sui_validator_of config = Ok svv /\ fstr svv = Ok sv /\
     generate_validator_alert_rules vs sv = Ok (art_validator_rules art)).
Proof.
  unfold main_run. destruct (dget config "bridges") as [bv|]; [|discriminate].
  intros H.
  destruct (validate_bridges_config bv) as [bridges|e]; cbn [bind] in H; [|discriminate].
  match type of H with bind ?m _ = _ => destruct m as [validators|e]; cbn [bind] in H; [|discriminate] end.
  destruct (sui_validator_of config) as [svv|e] eqn:Hsv; cbn [bind] in H; [|discriminate].
  destruct (generate_prometheus_config bridges validators) as [scrape|e]; cbn [bind] in H; [|discriminate].
  destruct (generate_alert_rules bridges) as [brules|e] eqn:Hb; cbn [bind] in H; [|discriminate].
  match type of H with bind ?m _ = _ => destruct m as [vrules|e] eqn:Hv; cbn [bind] in H; [|discriminate] end.
  destruct (generate_alertmanager_config config) as [routing|e]; cbn [bind] in H; [|discriminate].
  injection H as <-. cbn [art_bridge_rules art_validator_rules].
  split; [eauto|].
  destruct (truthy validators); [right | left; congruence].
  destruct (py_iter validators) as [vs|e]; cbn [bind] in Hv; [|discriminate].
  destruct (fstr svv) as [sv|e] eqn:Hf; cbn [bind] in Hv; [|discriminate].
  exists vs, svv, sv. auto.
Qed.

(** C1: in a successful run, the validator templates that name the
    authority ([reputation_rank], [fullnode_connectivity]) embed the
    configured [sui.validator] value, quoted, in their expression; the
    bridge [voting_power] template does not take it from the configuration
    but always emits the literal placeholder [${SUI_VALIDATOR}]. *)
Theorem C1_authority_substitution (config : pydict) (art : artifacts) (svv : pyval) (v : string)
  (Hrun : main_run config = Ok art)
  (Hsv : sui_validator_of config = Ok svv)
  (Hv : fstr svv = Ok v) :
  (forall gs r, In gs (art_validator_rules art) -> In r (file_rules gs) ->
     alert_type r = Some "reputation_rank" \/ alert_type r = Some "fullnode_connectivity" ->
     is_sub (q v) (r_expr r) = true) /\
  (forall gs r, In gs (art_bridge_rules art) -> In r (file_rules gs) ->
     alert_type r = Some "voting_power" ->
     exists alias, r_expr r =
       "current_bridge_voting_rights{" ++ sb ++ ", authority=" ++ q "${SUI_VALIDATOR}" ++ ", "
         ++ al alias ++ "} == 0").
Proof.
  destruct (main_run_rules config art Hrun) as [[bs Hb] Hvr]. split.
  - intros gs r Hgs Hr Hat.
    destruct Hvr as [Hnil | (vs & svv' & sv & Hsv' & Hf & Hg)];
      [rewrite Hnil in Hgs; destruct Hgs|].
    rewrite Hsv in Hsv'. injection Hsv' as <-. rewrite Hv in Hf. injection Hf as <-.
    apply generate_validator_alert_rules_from_shape in Hg. rewrite Forall_forall in Hg.
    destruct (Hg gs Hgs) as (j & a & alerts & ->).
    change (validator_rules_for v j a alerts) with (entity_rules Validator v j a alerts) in Hr.
    apply entity_rules_in in Hr. destruct Hr as (t & Ht & _ & ->).
    unfold validator_templates in Ht.
    repeat (destruct Ht as [<-|Ht];
      [destruct Hat as [Hat|Hat]; cbn in Hat; try discriminate;
       cbn [t_build r_expr validator_rule mk_rule]; find_sub|]).
    destruct Ht.
  - intros gs r Hgs Hr Hat.
    apply generate_alert_rules_from_shape in Hb. rewrite Forall_forall in Hb.
    destruct (Hb gs Hgs) as (j & a & alerts & ->).
    change (bridge_rules_for j a alerts) with (entity_rules Bridge "" j a alerts) in Hr.
    apply entity_rules_in in Hr. destruct Hr as (t & Ht & _ & ->).
    unfold bridge_templates in Ht.
    repeat (destruct Ht as [<-|Ht]; [cbn in Hat; try discriminate; exists a; reflexivity|]).
    destruct Ht.
Qed.

Lemma C1_witness :
  exists art, main_run cfg_authority = Ok art /\
  sui_validator_of cfg_authority = Ok (VStr "0xabc") /\ fstr (VStr "0xabc") = Ok "0xabc" /\
  ((forall gs r, In gs (art_validator_rules art) -> In r (file_rules gs) ->
      alert_type r = Some "reputation_rank" \/ alert_type r = Some "fullnode_connectivity" ->
      is_sub (q "0xabc") (r_expr r) = true) /\
   (forall gs r, In gs (art_bridge_rules art) -> In r (file_rules gs) ->
      alert_type r = Some "voting_power" ->
      exists alias, r_expr r =
        "current_bridge_voting_rights{" ++ sb ++ ", authority=" ++ q "${SUI_VALIDATOR}" ++ ", "
          ++ al alias ++ "} == 0")).
Proof.
  eexists. split; [reflexivity|]. split; [reflexivity|]. split; [reflexivity|].
  apply (C1_authority_substitution cfg_authority _ (VStr "0xabc") "0xabc"); reflexivity.
Defined.

(** C1 as stated fails for bridges: with [sui.validator] set to [0xabc]
    and [voting_power] enabled, the bridge rule's expression does not
    contain [0xabc] but the placeholder [${SUI_VALIDATOR}]. *)
Lemma C1_counterexample :
  match main_run cfg_authority with
  | Ok art =>
      map alert_type (concat (map file_rules (art_bridge_rules art))) = [Some "voting_power"] /\
      existsb (is_sub "0xabc") (map r_expr (concat (map file_rules (art_bridge_rules art)))) = false /\
      forallb (is_sub (q "${SUI_VALIDATOR}")) (map r_expr (concat (map file_rules (art_bridge_rules art)))) = true
  | Err _ => False
  end.
Proof. vm_compute. split; [|split]; reflexivity. Qed.

(* ------------------------------------------------------------------ *)
(** ** Further properties of the script *)

(** *** Validation *)

Lemma check_required_ext (kind : entity_kind) (i : nat) (fields : list string) (r r' : pydict) :
  (forall f, In f fields -> dget r' f = dget r f) ->
  check_required kind i fields r' = check_required kind i fields r.
Proof.
  induction fields as [|f fs IH]; intros H; cbn; [reflexivity|].
  rewrite (H f (or_introl eq_refl)).
  destruct (dget r f); [|reflexivity].
  destruct (truthy p); [|reflexivity].
  apply IH. intros f' Hf'. apply H. now right.
Qed.

Lemma default_alerts_valid (kind : entity_kind) (i : nat) :
  validate_alerts_config kind (default_alerts kind) i = Ok tt.
Proof. destruct kind; reflexivity. Qed.

Lemma validate_entry_idempotent (kind : entity_kind) (i : nat) (e e' : pyval) :
  validate_entry kind i e = Ok e' -> validate_entry kind i e' = Ok e'.
Proof.
  destruct e as [| | | | |r]; cbn; try discriminate.
  destruct (check_required kind i (required_fields kind) r) as [[]|er] eqn:Hc; cbn; [|discriminate].
  destruct (dget r "alerts") as [a|] eqn:Ha.
  - destruct (validate_alerts_config kind a i) as [[]|er] eqn:Hv; cbn; [|discriminate].
    intros H. injection H as <-. cbn. rewrite Hc. cbn. rewrite Ha, Hv. reflexivity.
  - intros H. injection H as <-. cbn.
    rewrite (check_required_ext kind i (required_fields kind) r).
    + rewrite Hc. cbn. rewrite dget_dset_same, default_alerts_valid. reflexivity.
    + intros f Hf. apply dget_dset_other.
      intros <-. destruct kind; cbn in Hf; intuition discriminate.
Qed.

Lemma validate_entries_idempotent (kind : entity_kind) (es : list pyval) :
  forall i es', validate_entries kind i es = Ok es' -> validate_entries kind i es' = Ok es'.
Proof.
  induction es as [|e t IH]; intros i es' H; cbn in H.
  - injection H as <-. reflexivity.
  - destruct (validate_entry kind i e) as [e'|er] eqn:He; cbn in H; [|discriminate].
    destruct (validate_entries kind (S i) t) as [t'|er] eqn:Ht; cbn in H; [|discriminate].
    injection H as <-. cbn.
    rewrite (validate_entry_idempotent kind i e e' He). cbn.
    rewrite (IH (S i) t' Ht). reflexivity.
Qed.

(** Validation is idempotent: the list [validate_bridges_config] /
    [validate_validators_config] leave behind (defaults filled in) passes
    validation again and is left unchanged by it. *)
Theorem validate_config_idempotent (kind : entity_kind) (v : pyval) (es' : list pyval)
  (Hok : validate_entities_config kind v = Ok es') :
  validate_entities_config kind (VList es') = Ok es'.
Proof.
  destruct v as [| | | |es|]; cbn in Hok; try discriminate.
  cbn. exact (validate_entries_idempotent kind es 0 es' Hok).
Qed.

Lemma validate_config_idempotent_witness :
  validate_entities_config Bridge (VList [VDict [("alias", VStr "A"); ("target", VStr "t");
    ("public_address", VStr "p")]]) =
    Ok [VDict [("alias", VStr "A"); ("target", VStr "t"); ("public_address", VStr "p");
               ("alerts", get_default_alerts)]] /\
  validate_entities_config Bridge (VList [VDict [("alias", VStr "A"); ("target", VStr "t");
    ("public_address", VStr "p"); ("alerts", get_default_alerts)]]) =
    Ok [VDict [("alias", VStr "A"); ("target", VStr "t"); ("public_address", VStr "p");
               ("alerts", get_default_alerts)]].
Proof.
  split; [vm_compute; reflexivity|].
  apply validate_config_idempotent with (v := VList [VDict [("alias", VStr "A"); ("target", VStr "t");
    ("public_address", VStr "p")]]).
  vm_compute. reflexivity.
Defined.

Lemma check_required_index (kind : entity_kind) (i : nat) (fields : list string) (r : pydict)
  (x : pyexc) :
  check_required kind i fields r = Err x -> exists ve, x = ValueError ve /\ error_index ve = Some i.
Proof.
  induction fields as [|f fs IH]; cbn; [discriminate|].
  destruct (dget r f); [destruct (truthy p)|]; [exact IH| |]; intros H; injection H as <-; eauto.
Qed.

Lemma check_alert_items_index (kind : entity_kind) (i : nat) (items : pydict) (x : pyexc) :
  check_alert_items kind i items = Err x -> exists ve, x = ValueError ve /\ error_index ve = Some i.
Proof.
  induction items as [|[k v] t IH]; cbn; [discriminate|].
  destruct (negb (mem_string k (valid_alert_types kind))); [intros H; injection H as <-; eauto|].
  destruct (negb (is_bool v)); [intros H; injection H as <-; eauto | exact IH].
Qed.

Lemma validate_entry_index (kind : entity_kind) (i : nat) (e : pyval) (x : pyexc) :
  validate_entry kind i e = Err x -> exists ve, x = ValueError ve /\ error_index ve = Some i.
Proof.
  destruct e as [| | | | |r]; cbn; try (intros H; injection H as <-; eauto).
  destruct (check_required kind i (required_fields kind) r) as [[]|er] eqn:Hc; cbn;
    [|intros H; injection H as <-; exact (check_required_index kind i _ r er Hc)].
  destruct (dget r "alerts") as [a|]; [|discriminate].
  destruct a as [| | | | |items]; cbn; try (intros H; injection H as <-; eauto).
  destruct (check_alert_items kind i items) as [[]|er] eqn:Hv; cbn; [discriminate|].
  intros H. injection H as <-. exact (check_alert_items_index kind i items er Hv).
Qed.

Lemma validate_entries_first_error (kind : entity_kind) (es : list pyval) :
  forall i x, validate_entries kind i es = Err x ->
  exists j, j < length es /\
    (forall k, k < j -> exists e', validate_entry kind (i + k) (nth k es VNone) = Ok e') /\
    validate_entry kind (i + j) (nth j es VNone) = Err x.
Proof.
  induction es as [|e t IH]; intros i x H; cbn in H; [discriminate|].
  destruct (validate_entry kind i e) as [e'|er] eqn:He; cbn in H.
  - destruct (validate_entries kind (S i) t) as [t'|er] eqn:Ht; cbn in H; [discriminate|].
    injection H as <-. destruct (IH (S i) er Ht) as (j & Hj & Hbefore & Hat).
    exists (S j). split; [cbn; lia|]. split.
    + intros [|k] Hk; cbn; [rewrite Nat.add_0_r; eauto|].
      rewrite Nat.add_succ_r. apply Hbefore. lia.
    + cbn. rewrite Nat.add_succ_r. exact Hat.
  - injection H as <-. exists 0. split; [cbn; lia|]. split; [intros k Hk; lia|].
    cbn. rewrite Nat.add_0_r. exact He.
Qed.

(** A failed validation reports the first offending entity: apart from the
    "must be a list" error, the error names an index [j] inside the list,
    every entity before [j] passes validation, and the error is the one
    entity [j] raises. *)
Theorem validate_config_first_error (kind : entity_kind) (v : pyval) (x : pyexc)
  (Herr : validate_entities_config kind v = Err x) :
  (x = ValueError (NotAList kind) /\ forall es, v <> VList es) \/
  exists es j ve, v = VList es /\ x = ValueError ve /\ error_index ve = Some j /\
    j < length es /\
    (forall k, k < j -> exists e', validate_entry kind k (nth k es VNone) = Ok e') /\
    validate_entry kind j (nth j es VNone) = Err x.
Proof.
  destruct v as [| | | |es|]; cbn in Herr;
    try (left; injection Herr as <-; split; [reflexivity | intros es; discriminate]).
  right. destruct (validate_entries_first_error kind es 0 x Herr) as (j & Hj & Hb & Ha).
  destruct (validate_entry_index kind j _ x Ha) as (ve & -> & Hi).
  exists es, j, ve. repeat split; auto.
Qed.

Lemma validate_config_first_error_witness :
  validate_entities_config Validator
    (VList [VDict [("alias", VStr "A"); ("target", VStr "t")]; VDict [("alias", VStr "B")]]) =
    Err (ValueError (MissingField Validator 1 "target")) /\
  ((ValueError (MissingField Validator 1 "target") = ValueError (NotAList Validator) /\
    forall es, VList [VDict [("alias", VStr "A"); ("target", VStr "t")]; VDict [("alias", VStr "B")]]
               <> VList es) \/
   exists es j ve,
     VList [VDict [("alias", VStr "A"); ("target", VStr "t")]; VDict [("alias", VStr "B")]] = VList es /\
     ValueError (MissingField Validator 1 "target") = ValueError ve /\ error_index ve = Some j /\
     j < length es /\
     (forall k, k < j -> exists e', validate_entry Validator k (nth k es VNone) = Ok e') /\
     validate_entry Validator j (nth j es VNone) = Err (ValueError (MissingField Validator 1 "target"))).
Proof.
  split; [vm_compute; reflexivity|].
  apply validate_config_first_error. vm_compute. reflexivity.
Defined.

(** *** Rule files *)

Lemma templates_labels (kind : entity_kind) (sv : string) :
  Forall (fun t => forall j a,
    sget (r_labels (t_build t j a)) (kind_prefix kind ++ "_index") = Some (str_nat j) /\
    sget (r_labels (t_build t j a)) (kind_prefix kind ++ "_alias") = Some a /\
    sget (r_labels (t_build t j a)) "alias" = Some (q a) /\
    sget (r_labels (t_build t j a)) "service" = Some (kind_service kind) /\
    sget (r_labels (t_build t j a)) "instance" = Some "{{ $labels.instance }}" /\
    exists name, r_alert (t_build t j a) = name ++ "_" ++ under a)
  (match kind with Bridge => bridge_templates | Validator => validator_templates sv end).
Proof.
  destruct kind; [unfold bridge_templates | unfold validator_templates];
    repeat (apply Forall_cons;
      [intros j a; repeat split; try reflexivity; eexists; reflexivity|]);
    apply Forall_nil.
Qed.

(** Every rule in the file of entity [i] carries the traceability labels
    [<kind>_index = str(i)] and [<kind>_alias = alias], the quoted alias in
    [alias], the entity's [service] and the templated [instance]; and its
    alert name ends with [_] and the alias with spaces replaced. *)
Theorem rule_labels (kind : entity_kind) (sv : string) (i : nat) (alias : string)
  (alerts : pydict) (r : rule)
  (Hin : In r (file_rules (entity_rules kind sv i alias alerts))) :
  sget (r_labels r) (kind_prefix kind ++ "_index") = Some (str_nat i) /\
  sget (r_labels r) (kind_prefix kind ++ "_alias") = Some alias /\
  sget (r_labels r) "alias" = Some (q alias) /\
  sget (r_labels r) "service" = Some (kind_service kind) /\
  sget (r_labels r) "instance" = Some "{{ $labels.instance }}" /\
  exists name, r_alert r = name ++ "_" ++ under alias.
Proof.
  apply entity_rules_in in Hin. destruct Hin as (t & Ht & _ & ->).
  pose proof (templates_labels kind sv) as Hf. rewrite Forall_forall in Hf.
  exact (Hf t Ht i alias).
Qed.

Lemma rule_labels_witness :
  In (hd {| r_alert := ""; r_expr := ""; r_for := ""; r_labels := [] |}
        (file_rules (entity_rules Validator "0xabc" 4 "my node" three_alerts)))
     (file_rules (entity_rules Validator "0xabc" 4 "my node" three_alerts)) /\
  (let r := hd {| r_alert := ""; r_expr := ""; r_for := ""; r_labels := [] |}
        (file_rules (entity_rules Validator "0xabc" 4 "my node" three_alerts)) in
   sget (r_labels r) (kind_prefix Validator ++ "_index") = Some (str_nat 4) /\
   sget (r_labels r) (kind_prefix Validator ++ "_alias") = Some "my node" /\
   sget (r_labels r) "alias" = Some (q "my node") /\
   sget (r_labels r) "service" = Some (kind_service Validator) /\
   sget (r_labels r) "instance" = Some "{{ $labels.instance }}" /\
   exists name, r_alert r = name ++ "_" ++ under "my node").
Proof.
  assert (H : In (hd {| r_alert := ""; r_expr := ""; r_for := ""; r_labels := [] |}
        (file_rules (entity_rules Validator "0xabc" 4 "my node" three_alerts)))
     (file_rules (entity_rules Validator "0xabc" 4 "my node" three_alerts)))
    by (vm_compute; left; reflexivity).
  split; [exact H|].
  exact (rule_labels Validator "0xabc" 4 "my node" three_alerts _ H).
Defined.

Lemma emit_groups_in (names : list string) (cats : list (list rule)) (g : group) :
  In g (emit_groups names cats) ->
  exists k, nth_error names k = Some (g_name g) /\ nth_error cats k = Some (g_rules g) /\
    g_rules g <> [].
Proof.
  revert cats; induction names as [|n ns IH]; intros [|c cs] H; cbn in H; try contradiction.
  destruct c as [|r rs].
  - destruct (IH cs H) as (k & H1 & H2 & H3). exists (S k). auto.
  - destruct H as [<-|H].
    + exists 0. cbn. repeat split; discriminate.
    + destruct (IH cs H) as (k & H1 & H2 & H3). exists (S k). auto.
Qed.

Lemma emit_groups_names_NoDup (names : list string) (cats : list (list rule)) :
  NoDup names -> NoDup (map g_name (emit_groups names cats)).
Proof.
  revert cats; induction names as [|n ns IH]; intros [|c cs] Hnd; cbn; try constructor.
  inversion Hnd as [|? ? Hn Hns]; subst.
  destruct c as [|r rs]; [apply IH; exact Hns|].
  cbn. constructor; [|apply IH; exact Hns].
  intros Hin. apply in_map_iff in Hin. destruct Hin as (g & Hg & Hin).
  apply emit_groups_in in Hin. destruct Hin as (k & Hk & _).
  apply Hn. apply nth_error_In with k. rewrite Hk, Hg. reflexivity.
Qed.

Lemma entity_group_names_NoDup (kind : entity_kind) (alias : string) :
  NoDup (entity_group_names kind alias).
Proof.
  destruct kind; cbn; repeat constructor; cbn; intros H;
    repeat (destruct H as [H|H]; [discriminate H|]); exact H.
Qed.

(** A rule file never holds an empty group, and holds at most one group per
    category: the groups are named after distinct categories of the entity's
    kind ([sui_bridge_common_alerts_<alias>], ... or
    [sui_validator_critical_alerts_<alias>], [sui_validator_warning_alerts_<alias>]). *)
Theorem rule_groups_nonempty_distinct (kind : entity_kind) (sv : string) (i : nat) (alias : string)
  (alerts : pydict) :
  NoDup (map g_name (entity_rules kind sv i alias alerts)) /\
  Forall (fun g => g_rules g <> [] /\ In (g_name g) (entity_group_names kind alias))
    (entity_rules kind sv i alias alerts).
Proof.
  assert (H : entity_rules kind sv i alias alerts =
              emit_groups (entity_group_names kind alias)
                (run_blocks (match kind with Bridge => 3 | Validator => 2 end)
                   (match kind with Bridge => bridge_templates | Validator => validator_templates sv end)
                   alerts i alias)) by (destruct kind; reflexivity).
  rewrite H. split.
  - apply emit_groups_names_NoDup, entity_group_names_NoDup.
  - apply Forall_forall. intros g Hg. apply emit_groups_in in Hg.
    destruct Hg as (k & Hn & _ & Hne). split; [exact Hne|].
    apply nth_error_In with k. exact Hn.
Qed.

Lemma templates_severity (sv : string) :
  Forall (fun t => forall j a, sget (r_labels (t_build t j a)) "severity" =
    Some (if Nat.eqb (t_cat t) 0 then "critical" else "warning")) (validator_templates sv).
Proof.
  unfold validator_templates.
  repeat (apply Forall_cons; [intros; reflexivity|]). apply Forall_nil.
Qed.

Lemma bridge_templates_severity :
  Forall (fun t => forall j a, sget (r_labels (t_build t j a)) "severity" = Some "critical")
    bridge_templates.
Proof.
  unfold bridge_templates.
  repeat (apply Forall_cons; [intros; reflexivity|]). apply Forall_nil.
Qed.

(** Severity and routing: every bridge rule is [critical] and the route
    tree of [generate_alertmanager_config] sends it to the [critical]
    receiver; in a validator file the rules of the critical group are
    [critical] and go to [critical], those of the warning group are
    [warning] and go to [warning].  No generated rule falls through to the
    [default] receiver. *)
Theorem rule_severity_routing (sv : string) (i : nat) (alias : string) (alerts : pydict) :
  (forall r, In r (file_rules (bridge_rules_for i alias alerts)) ->
     sget (r_labels r) "severity" = Some "critical" /\ route_receiver (r_labels r) = "critical") /\
  (forall g r, In g (validator_rules_for sv i alias alerts) -> In r (g_rules g) ->
     (g_name g = "sui_validator_critical_alerts_" ++ under alias /\
      sget (r_labels r) "severity" = Some "critical" /\ route_receiver (r_labels r) = "critical") \/
     (g_name g = "sui_validator_warning_alerts_" ++ under alias /\
      sget (r_labels r) "severity" = Some "warning" /\ route_receiver (r_labels r) = "warning")).
Proof.
  split.
  - intros r Hr.
    change (bridge_rules_for i alias alerts) with (entity_rules Bridge sv i alias alerts) in Hr.
    apply entity_rules_in in Hr. destruct Hr as (t & Ht & _ & ->).
    pose proof bridge_templates_severity as Hf. rewrite Forall_forall in Hf.
    unfold route_receiver. rewrite (Hf t Ht i alias). split; reflexivity.
  - intros g r Hg Hr. unfold validator_rules_for in Hg.
    rewrite run_blocks_buckets in Hg by exact (validator_templates_cat sv).
    apply emit_groups_in in Hg. destruct Hg as (k & Hn & Hc & _).
    destruct k as [|[|k]]; cbn [nth_error validator_group_names map seq] in Hn, Hc;
      try (destruct k; discriminate);
      injection Hn as Hn; injection Hc as Hc; rewrite <- Hc in Hr;
      unfold bucket in Hr; apply in_map_iff in Hr; destruct Hr as (t & <- & Ht);
      apply filter_In in Ht; destruct Ht as [Ht Hcat]; apply andb_prop in Hcat;
      destruct Hcat as [Hcat _]; apply Nat.eqb_eq in Hcat;
      pose proof (templates_severity sv) as Hf; rewrite Forall_forall in Hf;
      unfold route_receiver; rewrite (Hf t Ht i alias), Hcat; cbn.
    + left. auto.
    + right. auto.
Qed.

(** An entity given without [alerts] gets, after validation, every rule of
    its kind: one per catalogue key (in [emission_order]), spread over one
    group per category of its kind (three for bridges, two for validators). *)
Theorem absent_alerts_all_rules (kind : entity_kind) (sv : string) (i : nat) (r : pydict)
  (e' : pyval) (alias : string) (alerts : pydict)
  (Hok : validate_entry kind i (VDict r) = Ok e')
  (Hnone : dget r "alerts" = None)
  (Hea : entity_alias_alerts (default_alerts kind) e' = Ok (alias, alerts)) :
  map alert_type (file_rules (entity_rules kind sv i alias alerts)) = map Some (emission_order kind) /\
  map g_name (entity_rules kind sv i alias alerts) = entity_group_names kind alias.
Proof.
  cbn in Hok.
  destruct (check_required kind i (required_fields kind) r) as [[]|er]; cbn in Hok; [|discriminate].
  rewrite Hnone in Hok. injection Hok as <-.
  unfold entity_alias_alerts, py_get in Hea.
  destruct (py_index (VDict (dset r "alerts" (default_alerts kind))) "alias") as [av|er];
    cbn [bind] in Hea; [|discriminate].
  unfold dget_default in Hea. rewrite dget_dset_same in Hea.
  destruct av; try discriminate.
  destruct kind; cbn in Hea; injection Hea as <- <-; split;
    try (rewrite entity_rules_types; reflexivity); reflexivity.
Qed.

Lemma absent_alerts_all_rules_witness :
  validate_entry Validator 0 (VDict [("alias", VStr "V1"); ("target", VStr "t")]) =
    Ok (VDict [("alias", VStr "V1"); ("target", VStr "t"); ("alerts", get_default_validator_alerts)]) /\
  dget [("alias", VStr "V1"); ("target", VStr "t")] "alerts" = None /\
  entity_alias_alerts (default_alerts Validator)
    (VDict [("alias", VStr "V1"); ("target", VStr "t"); ("alerts", get_default_validator_alerts)]) =
    Ok ("V1", get_default_validator_alerts_dict) /\
  (map alert_type (file_rules (entity_rules Validator "0xabc" 0 "V1" get_default_validator_alerts_dict)) =
     map Some (emission_order Validator) /\
   map g_name (entity_rules Validator "0xabc" 0 "V1" get_default_validator_alerts_dict) =
     entity_group_names Validator "V1").
Proof.
  split; [vm_compute; reflexivity|]. split; [reflexivity|]. split; [vm_compute; reflexivity|].
  apply (absent_alerts_all_rules Validator "0xabc" 0 [("alias", VStr "V1"); ("target", VStr "t")]
           (VDict [("alias", VStr "V1"); ("target", VStr "t"); ("alerts", get_default_validator_alerts)]));
    vm_compute; reflexivity.
Defined.

(** *** Scrape configuration *)

Lemma map_result_length {A B : Type} (f : A -> result B) (l : list A) (l' : list B) :
  map_result f l = Ok l' -> length l' = length l /\ Forall (fun y => exists x, In x l /\ f x = Ok y) l'.
Proof.
  revert l'; induction l as [|x t IH]; intros l' H; cbn in H.
  - injection H as <-. split; [reflexivity | constructor].
  - destruct (f x) as [y|e] eqn:Hf; cbn [bind] in H; [|discriminate].
    destruct (map_result f t) as [ys|e] eqn:Ht; cbn [bind] in H; [|discriminate].
    injection H as <-. destruct (IH ys eq_refl) as [Hl Hall]. cbn. split; [lia|].
    constructor; [eauto|]. eapply Forall_impl; [|exact Hall].
    intros y' (x' & Hin & Hx'). exists x'. split; [right|]; assumption.
Qed.

Lemma map_result_Forall2 {A B : Type} (f : A -> result B) (l : list A) (l' : list B) :
  map_result f l = Ok l' -> Forall2 (fun x y => f x = Ok y) l l'.
Proof.
  revert l'; induction l as [|x t IH]; intros l' H; cbn in H.
  - injection H as <-. constructor.
  - destruct (f x) as [y|e] eqn:Hf; cbn [bind] in H; [|discriminate].
    destruct (map_result f t) as [ys|e] eqn:Ht; cbn [bind] in H; [|discriminate].
    injection H as <-. constructor; [exact Hf | exact (IH ys eq_refl)].
Qed.

Lemma bridge_jobs_ok (b : pyval) (js : list scrape_job) :
  bridge_jobs b = Ok js -> bridge_jobs_layout b js.
Proof.
  unfold bridge_jobs, bridge_jobs_layout. intros Hj.
  destruct (py_index b "alias") as [av|e]; cbn [bind] in Hj; [|discriminate].
  destruct (py_index b "target") as [tv|e]; cbn [bind] in Hj; [|discriminate].
  destruct (py_index b "public_address") as [pv|e]; cbn [bind] in Hj; [|discriminate].
  destruct tv as [| | |target| |]; try discriminate. destruct av as [| | |alias| |]; try discriminate.
  destruct (strip_scheme target) as [scheme ct] eqn:Es.
  destruct (fstr pv) as [pa|e]; cbn [bind] in Hj; [|discriminate].
  injection Hj as <-. exists alias, target. do 3 eexists. rewrite Es. cbn [fst snd].
  repeat split; reflexivity.
Qed.

Lemma validator_job_ok (v : pyval) (j : scrape_job) :
  validator_job v = Ok j -> validator_job_layout v j.
Proof.
  unfold validator_job, validator_job_layout. intros Hj.
  destruct (py_index v "alias") as [av|e]; cbn [bind] in Hj; [|discriminate].
  destruct (py_index v "target") as [tv|e]; cbn [bind] in Hj; [|discriminate].
  destruct tv as [| | |target| |]; try discriminate. destruct av as [| | |alias| |]; try discriminate.
  destruct (strip_scheme target) as [scheme ct] eqn:Es.
  injection Hj as <-. exists alias, target. rewrite Es. cbn [fst snd].
  repeat split; reflexivity.
Qed.

(** The scrape jobs (after the static [prometheus] job) are three per bridge,
    the [k]-th triple being the jobs of the [k]-th bridge (named after its
    alias, scraping its clean target), followed by one job per validator,
    the [k]-th being the [k]-th validator's.  A bridge's three jobs are its
    metrics job with the scheme of its target, and the
    [_metrics_public_key_check] and [_ingress_check] probe jobs, which have
    no scheme and relabel [instance] to the same clean target; validator
    jobs have a scheme and no [instance] relabelling. *)
Theorem scrape_jobs_layout (bridges : list pyval) (validators : pyval) (jobs : list scrape_job)
  (Hok : generate_prometheus_config bridges validators = Ok jobs) :
  exists bjobs vs vjobs,
    py_iter validators = Ok vs /\ jobs = (concat bjobs ++ vjobs)%list /\
    length jobs = 3 * length bridges + length vs /\
    Forall2 bridge_jobs_layout bridges bjobs /\
    Forall2 validator_job_layout vs vjobs.
Proof.
  unfold generate_prometheus_config in Hok.
  destruct (map_result bridge_jobs bridges) as [bjobs|e] eqn:Hb; cbn [bind] in Hok; [|discriminate].
  destruct (py_iter validators) as [vs|e] eqn:Hv; cbn [bind] in Hok; [|discriminate].
  destruct (map_result validator_job vs) as [vjobs|e] eqn:Hvj; cbn [bind] in Hok; [|discriminate].
  injection Hok as <-.
  assert (HB : Forall2 bridge_jobs_layout bridges bjobs).
  { eapply Forall2_impl; [|exact (map_result_Forall2 _ _ _ Hb)]. exact bridge_jobs_ok. }
  assert (HV : Forall2 validator_job_layout vs vjobs).
  { eapply Forall2_impl; [|exact (map_result_Forall2 _ _ _ Hvj)]. exact validator_job_ok. }
  exists bjobs, vs, vjobs. split; [reflexivity|]. split; [reflexivity|].
  split; [|split; assumption].
  rewrite length_app, (Forall2_length HV). f_equal.
  clear - HB. induction HB as [|b js bs jss Hl _ IH]; cbn; [reflexivity|].
  destruct Hl as (alias & target & m & h & g & _ & _ & -> & _). cbn. rewrite IH. lia.
Qed.

Lemma scrape_jobs_layout_witness :
  exists jobs, generate_prometheus_config scrape_bridges scrape_validators = Ok jobs /\
  exists bjobs vs vjobs,
    py_iter scrape_validators = Ok vs /\ jobs = (concat bjobs ++ vjobs)%list /\
    length jobs = 3 * length scrape_bridges + length vs /\
    Forall2 bridge_jobs_layout scrape_bridges bjobs /\
    Forall2 validator_job_layout vs vjobs.
Proof.
  eexists. split; [vm_compute; reflexivity|].
  apply scrape_jobs_layout. vm_compute. reflexivity.
Defined.

(** *** The run of [main] *)

(** A [validators] entry that is present but falsy and not iterable
    ([null], [false] or [0]) skips validator validation ([if validators:])
    and then makes [generate_prometheus_config] fail with a [TypeError]
    when it iterates it: the run produces nothing, although the bridges are
    valid. *)
Theorem falsy_validators_type_error (config : pydict) (bv vv svv : pyval) (bs : list pyval)
  (bjobs : list (list scrape_job))
  (Hb : dget config "bridges" = Some bv)
  (Hbv : validate_bridges_config bv = Ok bs)
  (Hv : dget config "validators" = Some vv)
  (Hfalsy : truthy vv = false)
  (Hiter : py_iter vv = Err TypeError)
  (Hsv : sui_validator_of config = Ok svv)
  (Hjobs : map_result bridge_jobs bs = Ok bjobs) :
  main_run config = Err TypeError.
Proof.
  unfold main_run. rewrite Hb. cbn [bind]. rewrite Hbv. cbn [bind].
  unfold dget_default. rewrite Hv, Hfalsy. cbn [bind]. rewrite Hsv. cbn [bind].
  unfold generate_prometheus_config. rewrite Hjobs. cbn [bind]. rewrite Hiter. reflexivity.
Qed.

Lemma falsy_validators_type_error_witness :
  dget cfg_null_validators "bridges" =
    Some (VList [VDict (bridge_with_alerts [("uptime", VBool true)])]) /\
  validate_bridges_config (VList [VDict (bridge_with_alerts [("uptime", VBool true)])]) =
    Ok [VDict (bridge_with_alerts [("uptime", VBool true)])] /\
  dget cfg_null_validators "validators" = Some VNone /\
  sui_validator_of cfg_null_validators = Ok (VStr "") /\
  main_run cfg_null_validators = Err TypeError.
Proof.
  split; [reflexivity|]. split; [vm_compute; reflexivity|]. split; [reflexivity|].
  split; [reflexivity|].
  apply (falsy_validators_type_error cfg_null_validators
           (VList [VDict (bridge_with_alerts [("uptime", VBool true)])]) VNone (VStr "")
           [VDict (bridge_with_alerts [("uptime", VBool true)])]
           (match map_result bridge_jobs [VDict (bridge_with_alerts [("uptime", VBool true)])] with
            | Ok j => j | Err _ => [] end));
    vm_compute; reflexivity.
Defined.

Lemma prefix_nil (x : string) : String.prefix "" x = true.
Proof. destruct x; reflexivity. Qed.

Lemma falsy_iter_nil (v : pyval) (vs : list pyval) :
  truthy v = false -> py_iter v = Ok vs -> vs = [].
Proof.
  destruct v as [| | |s|l|d]; cbn; intros Ht Hi; try discriminate; injection Hi as <-.
  - destruct s; [reflexivity | discriminate].
  - destruct l; [reflexivity | discriminate].
  - destruct d; [reflexivity | discriminate].
Qed.

(** Without validators (the section absent, or an empty list, string or
    mapping), a successful run writes no validator rule file and every
    scrape job it configures is one of the bridge jobs. *)
Theorem no_validators_bridge_only (config : pydict) (art : artifacts)
  (Hok : main_run config = Ok art)
  (Hnone : truthy (dget_default config "validators" (VList [])) = false) :
  art_validator_rules art = [] /\
  Forall (fun j => String.prefix "sui_bridge_" (job_name j) = true) (art_scrape art).
Proof.
  unfold main_run in Hok.
  destruct (dget config "bridges") as [bv|]; [|discriminate].
  destruct (validate_bridges_config bv) as [bridges|e]; cbn [bind] in Hok; [|discriminate].
  rewrite Hnone in Hok. cbn [bind] in Hok. rewrite Hnone in Hok.
  destruct (sui_validator_of config) as [svv|e]; cbn [bind] in Hok; [|discriminate].
  destruct (generate_prometheus_config bridges (dget_default config "validators" (VList [])))
    as [scrape|e] eqn:Hp; cbn [bind] in Hok; [|discriminate].
  destruct (generate_alert_rules bridges) as [brules|e]; cbn [bind] in Hok; [|discriminate].
  destruct (generate_alertmanager_config config) as [routing|e]; cbn [bind] in Hok; [|discriminate].
  injection Hok as <-. cbn [art_validator_rules art_scrape]. split; [reflexivity|].
  unfold generate_prometheus_config in Hp.
  destruct (map_result bridge_jobs bridges) as [bjobs|e] eqn:Hb; cbn [bind] in Hp; [|discriminate].
  destruct (py_iter (dget_default config "validators" (VList []))) as [vs|e] eqn:Hi;
    cbn [bind] in Hp; [|discriminate].
  rewrite (falsy_iter_nil _ vs Hnone Hi) in Hp. cbn in Hp. injection Hp as <-.
  rewrite app_nil_r. apply Forall_forall. intros j Hj.
  apply in_concat in Hj. destruct Hj as (js & Hjs & Hj).
  destruct (map_result_length _ _ _ Hb) as [_ Hall]. rewrite Forall_forall in Hall.
  destruct (Hall js Hjs) as (b & _ & Hbj).
  unfold bridge_jobs in Hbj.
  destruct (py_index b "alias") as [av|e]; cbn [bind] in Hbj; [|discriminate].
  destruct (py_index b "target") as [tv|e]; cbn [bind] in Hbj; [|discriminate].
  destruct (py_index b "public_address") as [pv|e]; cbn [bind] in Hbj; [|discriminate].
  destruct tv; try discriminate. destruct av; try discriminate.
  destruct (strip_scheme s) as [scheme ct].
  destruct (fstr pv) as [pa|e]; cbn [bind] in Hbj; [|discriminate].
  injection Hbj as <-. destruct Hj as [<-|[<-|[<-|[]]]]; cbn; apply prefix_nil.
Qed.

Lemma no_validators_bridge_only_witness :
  exists art, main_run cfg_partial_alerts = Ok art /\
  truthy (dget_default cfg_partial_alerts "validators" (VList [])) = false /\
  (art_validator_rules art = [] /\
   Forall (fun j => String.prefix "sui_bridge_" (job_name j) = true) (art_scrape art)).
Proof.
  eexists. split; [vm_compute; reflexivity|]. split; [reflexivity|].
  apply no_validators_bridge_only with (config := cfg_partial_alerts); [vm_compute|]; reflexivity.
Defined.

(** *** Rule file names *)

Lemma str_append_assoc (a b c : string) : (a ++ (b ++ c))%string = ((a ++ b) ++ c)%string.
Proof. induction a as [|x a IH]; cbn; [reflexivity | now rewrite IH]. Qed.

Lemma str_append_nil (a : string) : (a ++ "")%string = a.
Proof. induction a as [|x a IH]; cbn; [reflexivity | now rewrite IH]. Qed.

Lemma str_append_inv_head (p x y : string) : (p ++ x)%string = (p ++ y)%string -> x = y.
Proof. induction p as [|c p IH]; cbn; intros H; [exact H | injection H as H; exact (IH H)]. Qed.

Lemma digits_value_app (w t : string) (a : nat) :
  digits_value (w ++ t) a = digits_value t (digits_value w a).
Proof. revert a; induction w as [|c w IH]; intros a; cbn; [reflexivity | apply IH]. Qed.

Lemma all_digits_app (w t : string) :
  all_digits w = true -> all_digits t = true -> all_digits (w ++ t) = true.
Proof.
  induction w as [|c w IH]; cbn; intros Hw Ht; [exact Ht|].
  apply andb_prop in Hw. destruct Hw as [Hc Hw]. rewrite Hc, (IH Hw Ht). reflexivity.
Qed.

Lemma str_nat_aux_spec (fuel : nat) :
  forall n acc, n < fuel ->
  exists w, str_nat_aux fuel n acc = (w ++ acc)%string /\ all_digits w = true /\
    digits_value w 0 = n.
Proof.
  induction fuel as [|f IH]; intros n acc Hn; [lia|].
  cbn [str_nat_aux].
  assert (Hd : nat_of_ascii (ascii_of_nat (48 + n mod 10)) = 48 + n mod 10).
  { apply nat_ascii_embedding. pose proof (Nat.mod_upper_bound n 10). lia. }
  generalize dependent (ascii_of_nat (48 + n mod 10)). intros d Hd.
  assert (Hdd : all_digits (String d "") = true).
  { cbn. rewrite Hd. pose proof (Nat.mod_upper_bound n 10).
    apply andb_true_intro; split; [apply andb_true_intro; split|]; try reflexivity;
      apply Nat.leb_le; lia. }
  destruct (Nat.ltb_spec n 10) as [Hlt|Hge].
  - exists (String d ""). split; [reflexivity|]. split; [exact Hdd|].
    cbn. rewrite Hd. rewrite Nat.mod_small by exact Hlt. lia.
  - destruct (IH (n / 10) (String d acc)) as (w & Hw & Hdig & Hval).
    { pose proof (Nat.div_lt n 10). lia. }
    exists (w ++ String d "")%string. split; [|split].
    + rewrite Hw, <- str_append_assoc. reflexivity.
    + apply all_digits_app; assumption.
    + rewrite digits_value_app, Hval. cbn [digits_value]. rewrite Hd.
      pose proof (Nat.div_mod_eq n 10). pose proof (Nat.mod_upper_bound n 10). lia.
Qed.

Lemma str_nat_spec (n : nat) : all_digits (str_nat n) = true /\ digits_value (str_nat n) 0 = n.
Proof.
  unfold str_nat.
  destruct (str_nat_aux_spec (S n) n "" (Nat.lt_succ_diag_r n)) as (w & Hw & H1 & H2).
  rewrite Hw, str_append_nil. auto.
Qed.

Lemma str_nat_inj (i j : nat) : str_nat i = str_nat j -> i = j.
Proof.
  intros H. rewrite <- (proj2 (str_nat_spec i)), <- (proj2 (str_nat_spec j)), H. reflexivity.
Qed.

Lemma all_digits_no_underscore (w : string) : all_digits w = true -> no_char "_"%char w = true.
Proof.
  induction w as [|c w IH]; cbn; intros H; [reflexivity|].
  apply andb_prop in H. destruct H as [Hc Hw]. apply andb_prop in Hc. destruct Hc as [_ Hc].
  rewrite (IH Hw), andb_true_r.
  destruct (Ascii.eqb_spec c "_"%char) as [->|]; [discriminate Hc | reflexivity].
Qed.

Lemma split_at_char (c : ascii) (x y a b : string) :
  no_char c x = true -> no_char c y = true ->
  (x ++ String c a)%string = (y ++ String c b)%string -> x = y /\ a = b.
Proof.
  revert y; induction x as [|d x IH]; intros [|e y] Hx Hy H; cbn in *.
  - injection H as H. auto.
  - injection H as -> _. rewrite Ascii.eqb_refl in Hy. discriminate.
  - injection H as -> _. rewrite Ascii.eqb_refl in Hx. discriminate.
  - injection H as -> H. apply andb_prop in Hx. apply andb_prop in Hy.
    destruct (IH y (proj2 Hx) (proj2 Hy) H) as [-> ->]. auto.
Qed.

Lemma rule_file_index (i j : nat) (s t : string) (pfx : string) :
  (pfx ++ str_nat i ++ "_" ++ s ++ "_alerts.yml")%string =
  (pfx ++ str_nat j ++ "_" ++ t ++ "_alerts.yml")%string -> i = j.
Proof.
  intros H. apply str_append_inv_head in H. cbn [append] in H.
  apply split_at_char in H; [|apply all_digits_no_underscore, str_nat_spec..].
  apply str_nat_inj, H.
Qed.

Lemma write_bridge_rule_files_names (bs : list pyval) :
  forall i n, In n (map fst (fst (write_bridge_rule_files i bs))) ->
  exists j s, i <= j /\ n = bridge_rule_file j s.
Proof.
  induction bs as [|b bs IH]; intros i n H; cbn in H; [contradiction|].
  destruct (entity_alias_alerts get_default_alerts b) as [[alias alerts]|e]; [|contradiction].
  destruct (write_bridge_rule_files (S i) bs) as [fs err] eqn:E. cbn in H.
  destruct H as [<-|H]; [exists i, (safe_alias alias); split; [lia | reflexivity]|].
  pose proof (IH (S i) n) as IH'. rewrite E in IH'. destruct (IH' H) as (j & s & Hj & ->).
  exists j, s. split; [lia | reflexivity].
Qed.

Lemma write_validator_rule_files_names (sv : string) (vs : list pyval) :
  forall i n, In n (map fst (fst (write_validator_rule_files sv i vs))) ->
  exists j s, i <= j /\ n = validator_rule_file j s.
Proof.
  induction vs as [|v vs IH]; intros i n H; cbn in H; [contradiction|].
  destruct (entity_alias_alerts get_default_validator_alerts v) as [[alias alerts]|e]; [|contradiction].
  destruct (write_validator_rule_files sv (S i) vs) as [fs err] eqn:E. cbn in H.
  destruct H as [<-|H]; [exists i, (safe_alias alias); split; [lia | reflexivity]|].
  pose proof (IH (S i) n) as IH'. rewrite E in IH'. destruct (IH' H) as (j & s & Hj & ->).
  exists j, s. split; [lia | reflexivity].
Qed.

Lemma write_bridge_rule_files_NoDup (bs : list pyval) :
  forall i, NoDup (map fst (fst (write_bridge_rule_files i bs))).
Proof.
  induction bs as [|b bs IH]; intros i; cbn [write_bridge_rule_files]; [constructor|].
  destruct (entity_alias_alerts get_default_alerts b) as [[alias alerts]|e]; [|constructor].
  pose proof (IH (S i)) as IH'. pose proof (write_bridge_rule_files_names bs (S i)) as Hn.
  destruct (write_bridge_rule_files (S i) bs) as [fs err]. cbn [fst snd map] in *.
  constructor; [|exact IH'].
  intros Hin. destruct (Hn _ Hin) as (j & s & Hj & Heq).
  apply rule_file_index in Heq. lia.
Qed.

Lemma write_validator_rule_files_NoDup (sv : string) (vs : list pyval) :
  forall i, NoDup (map fst (fst (write_validator_rule_files sv i vs))).
Proof.
  induction vs as [|v vs IH]; intros i; cbn [write_validator_rule_files]; [constructor|].
  destruct (entity_alias_alerts get_default_validator_alerts v) as [[alias alerts]|e]; [|constructor].
  pose proof (IH (S i)) as IH'. pose proof (write_validator_rule_files_names sv vs (S i)) as Hn.
  destruct (write_validator_rule_files sv (S i) vs) as [fs err]. cbn [fst snd map] in *.
  constructor; [|exact IH'].
  intros Hin. destruct (Hn _ Hin) as (j & s & Hj & Heq).
  apply rule_file_index in Heq. lia.
Qed.

(** No rule file overwrites another in a run: the files written for the
    bridges have pairwise distinct names, so have those for the validators,
    and no bridge file shares its name with a validator file; this holds
    whatever the aliases (equal aliases included), because each name
    carries the entity's index. *)
Theorem rule_file_names_distinct (sv : string) (bridges validators : list pyval) :
  NoDup (map fst (fst (write_bridge_rule_files 0 bridges))) /\
  NoDup (map fst (fst (write_validator_rule_files sv 0 validators))) /\
  (forall n, In n (map fst (fst (write_bridge_rule_files 0 bridges))) ->
     ~ In n (map fst (fst (write_validator_rule_files sv 0 validators)))).
Proof.
  split; [apply write_bridge_rule_files_NoDup|].
  split; [apply write_validator_rule_files_NoDup|].
  intros n Hb Hv.
  destruct (write_bridge_rule_files_names bridges 0 n Hb) as (j & s & _ & ->).
  destruct (write_validator_rule_files_names sv validators 0 _ Hv) as (k & t & _ & Heq).
  discriminate Heq.
Qed.

(** The files written are those of [generate_alert_rules]: when it
    succeeds, the loop runs to the end and writes its groups in order. *)
Lemma write_bridge_rule_files_ok (bs : list pyval) :
  forall i gss, generate_alert_rules_from i bs = Ok gss ->
  snd (write_bridge_rule_files i bs) = None /\ map snd (fst (write_bridge_rule_files i bs)) = gss.
Proof.
  induction bs as [|b bs IH]; intros i gss H; cbn [generate_alert_rules_from] in H.
  - injection H as <-. split; reflexivity.
  - cbn [write_bridge_rule_files].
    destruct (entity_alias_alerts get_default_alerts b) as [[alias alerts]|e]; cbn [bind] in H;
      [|discriminate].
    destruct (generate_alert_rules_from (S i) bs) as [rest|e] eqn:E; cbn [bind] in H; [|discriminate].
    injection H as <-. destruct (IH (S i) rest E) as [H1 H2].
    destruct (write_bridge_rule_files (S i) bs) as [fs err]. cbn in *. subst. split; reflexivity.
Qed.

(** *** Shell exports against the rule files *)

Lemma check_alert_items_bool (kind : entity_kind) (i : nat) (items : pydict) :
  check_alert_items kind i items = Ok tt -> forall k v, In (k, v) items -> is_bool v = true.
Proof.
  induction items as [|[k0 v0] t IH]; cbn; intros H k v Hin; [destruct Hin|].
  destruct (mem_string k0 (valid_alert_types kind)); cbn in H; [|discriminate].
  destruct (is_bool v0) eqn:Hb; cbn in H; [|discriminate].
  destruct Hin as [Heq|Hin]; [injection Heq as <- <-; exact Hb | exact (IH H k v Hin)].
Qed.

Lemma validated_alerts (kind : entity_kind) (i : nat) (e e' : pyval) :
  validate_entry kind i e = Ok e' ->
  exists r items, e' = VDict r /\ dget r "alerts" = Some (VDict items) /\
    check_alert_items kind i items = Ok tt.
Proof.
  destruct e as [| | | | |r]; cbn; try discriminate.
  destruct (check_required kind i (required_fields kind) r) as [[]|er]; cbn; [|discriminate].
  destruct (dget r "alerts") as [a|] eqn:Ha.
  - destruct a as [| | | | |items]; cbn; try discriminate.
    destruct (check_alert_items kind i items) as [[]|er] eqn:Hc; cbn; [|discriminate].
    intros H. injection H as <-. eauto.
  - intros H. injection H as <-. pose proof (default_alerts_valid kind i) as Hd.
    pose proof (dget_dset_same r "alerts" (default_alerts kind)) as Hs.
    destruct kind; cbn [default_alerts] in *.
    + exists (dset r "alerts" get_default_alerts), get_default_alerts_dict. auto.
    + exists (dset r "alerts" get_default_validator_alerts), get_default_validator_alerts_dict. auto.
Qed.

Lemma validate_entries_nth (kind : entity_kind) (es : list pyval) :
  forall i es', validate_entries kind i es = Ok es' ->
  length es' = length es /\
  forall j, j < length es -> validate_entry kind (i + j) (nth j es VNone) = Ok (nth j es' VNone).
Proof.
  induction es as [|e t IH]; intros i es' H; cbn [validate_entries] in H.
  - injection H as <-. split; [reflexivity | cbn; intros; lia].
  - destruct (validate_entry kind i e) as [e'|er] eqn:He; cbn [bind] in H; [|discriminate].
    destruct (validate_entries kind (S i) t) as [t'|er] eqn:Ht; cbn [bind] in H; [|discriminate].
    injection H as <-. destruct (IH (S i) t' Ht) as [Hl Hn].
    split; [cbn; congruence|]. intros [|j] Hj; cbn [nth].
    + rewrite Nat.add_0_r. exact He.
    + rewrite <- Nat.add_succ_comm. apply Hn. cbn in Hj. lia.
Qed.

Lemma generate_alert_rules_from_nth (bs : list pyval) :
  forall i gss, generate_alert_rules_from i bs = Ok gss ->
  forall j, j < length bs ->
  exists alias alerts, entity_alias_alerts get_default_alerts (nth j bs VNone) = Ok (alias, alerts) /\
    nth j gss [] = bridge_rules_for (i + j) alias alerts.
Proof.
  induction bs as [|b bs IH]; intros i gss H j Hj; [cbn in Hj; lia|].
  cbn [generate_alert_rules_from] in H.
  destruct (entity_alias_alerts get_default_alerts b) as [[alias alerts]|e] eqn:Eb; cbn [bind] in H;
    [|discriminate].
  destruct (generate_alert_rules_from (S i) bs) as [rest|e] eqn:E; cbn [bind] in H; [|discriminate].
  injection H as <-. destruct j as [|j]; cbn [nth].
  - exists alias, alerts. rewrite Nat.add_0_r. auto.
  - rewrite <- Nat.add_succ_comm. apply (IH (S i) rest E). cbn in Hj. lia.
Qed.

Lemma alert_flag_lines_In (i : nat) (items : pydict) :
  forall flags, alert_flag_lines i items = Ok flags ->
  forall x, In x flags <->
    exists k v s, In (k, v) items /\ flag_str v = Ok s /\
      x = export_line ("SUI_BRIDGE_" ++ str_nat i ++ "_ALERT_" ++ upper k) s.
Proof.
  induction items as [|[k0 v0] t IH]; intros flags H x; cbn [alert_flag_lines] in H.
  - injection H as <-. split; [intros []|]. intros (k & v & s & [] & _).
  - destruct (flag_str v0) as [s0|e] eqn:Hs; cbn [bind] in H; [|discriminate].
    destruct (alert_flag_lines i t) as [rest|e] eqn:Hr; cbn [bind] in H; [|discriminate].
    injection H as <-. cbn [In]. rewrite (IH rest eq_refl x). split.
    + intros [<-|(k & v & s & Hin & Hf & ->)].
      * exists k0, v0, s0. auto.
      * exists k, v, s. auto.
    + intros (k & v & s & [Heq|Hin] & Hf & ->).
      * injection Heq as -> ->. rewrite Hs in Hf. injection Hf as ->. auto.
      * right. exists k, v, s. auto.
Qed.

Lemma bridge_export_block_shape (i : nat) (b : pyval) (lsi : list string) :
  bridge_export_block i b = Ok lsi ->
  exists a t p items flags,
    py_get b "alerts" get_default_alerts = Ok (VDict items) /\
    alert_flag_lines i items = Ok flags /\
    lsi = app [ export_line ("SUI_BRIDGE_" ++ str_nat i ++ "_ALIAS") a;
                export_line ("SUI_BRIDGE_" ++ str_nat i ++ "_TARGET") t;
                export_line ("SUI_BRIDGE_" ++ str_nat i ++ "_PUBLIC_ADDRESS") p ] flags.
Proof.
  unfold bridge_export_block. intros H.
  destruct (py_index b "alias") as [av|e]; cbn [bind] in H; [|discriminate].
  destruct (py_index b "target") as [tv|e]; cbn [bind] in H; [|discriminate].
  destruct (py_index b "public_address") as [pv|e]; cbn [bind] in H; [|discriminate].
  destruct (py_get b "alerts" get_default_alerts) as [al|e]; cbn [bind] in H; [|discriminate].
  destruct (fstr av) as [a|e]; cbn [bind] in H; [|discriminate].
  destruct (fstr tv) as [t|e]; cbn [bind] in H; [|discriminate].
  destruct (fstr pv) as [p|e]; cbn [bind] in H; [|discriminate].
  destruct al as [| | | | |items]; try discriminate.
  destruct (alert_flag_lines i items) as [flags|e] eqn:Hf; cbn [bind] in H; [|discriminate].
  injection H as <-. exists a, t, p, items, flags. auto.
Qed.

Lemma bridge_export_blocks_In (bs : list pyval) :
  forall i blocks, bridge_export_blocks i bs = Ok blocks ->
  forall x, In x blocks -> exists j lsj, bridge_export_block (i + j) (nth j bs VNone) = Ok lsj /\ In x lsj.
Proof.
  induction bs as [|b bs IH]; intros i blocks H x Hx; cbn [bridge_export_blocks] in H.
  - injection H as <-. destruct Hx.
  - destruct (bridge_export_block i b) as [l|e] eqn:Hb; cbn [bind] in H; [|discriminate].
    destruct (bridge_export_blocks (S i) bs) as [rest|e] eqn:Hr; cbn [bind] in H; [|discriminate].
    injection H as <-. apply in_app_iff in Hx. destruct Hx as [Hx|Hx].
    + exists 0, l. rewrite Nat.add_0_r. auto.
    + destruct (IH (S i) rest Hr x Hx) as (j & lsj & Hj & Hin).
      exists (S j), lsj. rewrite <- Nat.add_succ_comm. auto.
Qed.

Lemma bridge_export_blocks_nth (bs : list pyval) :
  forall i blocks, bridge_export_blocks i bs = Ok blocks ->
  forall j, j < length bs ->
  exists lsj, bridge_export_block (i + j) (nth j bs VNone) = Ok lsj /\ incl lsj blocks.
Proof.
  induction bs as [|b bs IH]; intros i blocks H j Hj; [cbn in Hj; lia|].
  cbn [bridge_export_blocks] in H.
  destruct (bridge_export_block i b) as [l|e] eqn:Hb; cbn [bind] in H; [|discriminate].
  destruct (bridge_export_blocks (S i) bs) as [rest|e] eqn:Hr; cbn [bind] in H; [|discriminate].
  injection H as <-. destruct j as [|j]; cbn [nth].
  - exists l. rewrite Nat.add_0_r. split; [exact Hb | apply incl_appl, incl_refl].
  - destruct (IH (S i) rest Hr j ltac:(cbn in Hj; lia)) as (lsj & Hj' & Hincl).
    exists lsj. rewrite <- Nat.add_succ_comm. split; [exact Hj' | apply incl_appr, Hincl].
Qed.

Lemma bridge_line_eq (i : nat) (n v : string) :
  export_line ("SUI_BRIDGE_" ++ str_nat i ++ n) v =
  ("export SUI_BRIDGE_" ++ str_nat i ++ n ++ "=" ++ sq ++ v ++ sq)%string.
Proof. unfold export_line. rewrite <- !str_append_assoc. reflexivity. Qed.

Lemma bridge_line_index (i j : nat) (n n' v v' : string) :
  export_line ("SUI_BRIDGE_" ++ str_nat i ++ String "_" n) v =
  export_line ("SUI_BRIDGE_" ++ str_nat j ++ String "_" n') v' ->
  i = j /\ (n ++ "=" ++ sq ++ v ++ sq)%string = (n' ++ "=" ++ sq ++ v' ++ sq)%string.
Proof.
  rewrite !bridge_line_eq. intros H. apply str_append_inv_head in H. cbn [append] in H.
  apply split_at_char in H; [|apply all_digits_no_underscore, str_nat_spec..].
  destruct H as [Hn Hr]. split; [exact (str_nat_inj i j Hn) | exact Hr].
Qed.

Lemma upper_catalogue (k : string) :
  In k bridge_alert_types -> lower (upper k) = k /\ no_char "="%char (upper k) = true.
Proof.
  intros Hk. repeat (destruct Hk as [<-|Hk]; [split; reflexivity|]). destruct Hk.
Qed.

Lemma in_map_Some (k : string) (l : list string) : In (Some k) (map Some l) <-> In k l.
Proof.
  rewrite in_map_iff. split; [intros (x & Hx & Hin); injection Hx as ->; exact Hin|].
  intros Hin. exists k. auto.
Qed.

Lemma bridge_rules_enabled (i : nat) (alias : string) (alerts : pydict) (k : string) :
  In k bridge_alert_types ->
  (In (Some k) (map alert_type (file_rules (bridge_rules_for i alias alerts))) <->
   enabled alerts k = true).
Proof.
  intros Hk. pose proof (entity_rules_types Bridge "" i alias alerts) as Ht.
  cbn [entity_rules emission_order] in Ht. rewrite Ht, in_map_Some, filter_In. tauto.
Qed.

(** For every bridge of a validated configuration whose rule file is
    generated and whose variables are exported, and every alert type [k] of
    the catalogue, the export [SUI_BRIDGE_<i>_ALERT_<K>='true'] is printed
    exactly when bridge [i]'s rule file contains a rule of type [k]; the
    alerts mapping is a Python dictionary, so its keys are distinct. *)
Theorem export_alert_flags_match_rules (bv : pyval) (bridges : list pyval)
  (gss : list (list group)) (sv : string) (ls : list string) (i : nat) (k : string)
  (Hv : validate_bridges_config bv = Ok bridges)
  (Hg : generate_alert_rules bridges = Ok gss)
  (He : export_bridge_variables bridges sv = Ok ls)
  (Hi : i < length bridges)
  (Hnd : forall r a, nth i bridges VNone = VDict r -> dget r "alerts" = Some (VDict a) ->
         NoDup (map fst a))
  (Hk : In k bridge_alert_types) :
  In (export_line ("SUI_BRIDGE_" ++ str_nat i ++ "_ALERT_" ++ upper k) "true") ls <->
  In (Some k) (map alert_type (file_rules (nth i gss []))).
Proof.
  assert (Hvb : exists e, validate_entry Bridge i e = Ok (nth i bridges VNone)).
  { unfold validate_bridges_config, validate_entities_config in Hv.
    destruct bv as [| | | |es|]; try discriminate.
    destruct (validate_entries_nth Bridge es 0 bridges Hv) as [Hl Hn].
    exists (nth i es VNone). apply (Hn i). lia. }
  destruct Hvb as [e0 Hvb].
  destruct (validated_alerts _ _ _ _ Hvb) as (r & items & Hb & Hda & Hchk).
  specialize (Hnd r items Hb Hda).
  assert (Hitems : forall its, py_get (nth i bridges VNone) "alerts" get_default_alerts = Ok (VDict its) ->
                   its = items).
  { intros its H. rewrite Hb in H. cbn [py_get] in H. unfold dget_default in H.
    rewrite Hda in H. injection H as <-. reflexivity. }
  destruct (generate_alert_rules_from_nth bridges 0 gss Hg i Hi) as (alias & alerts & Hea & Hgi).
  cbn [Nat.add] in Hgi. rewrite Hgi.
  assert (alerts = items) as ->.
  { unfold entity_alias_alerts in Hea.
    destruct (py_index (nth i bridges VNone) "alias") as [av|ex]; cbn [bind] in Hea; [|discriminate].
    destruct (py_get (nth i bridges VNone) "alerts" get_default_alerts) as [al|ex] eqn:Hpg;
      cbn [bind] in Hea; [|discriminate].
    destruct av; try discriminate. destruct al; try discriminate.
    injection Hea as _ <-. exact (Hitems _ eq_refl). }
  rewrite (bridge_rules_enabled i alias items k Hk).
  unfold export_bridge_variables in He.
  destruct (bridge_export_blocks 0 bridges) as [blocks|ex] eqn:Hbl; cbn [bind] in He; [|discriminate].
  injection He as <-. split.
  - intros Hin. cbn [In] in Hin.
    destruct Hin as [H|[H|[H|Hin]]]; [unfold export_line in H; cbn [append] in H; discriminate H..|].
    apply in_app_iff in Hin.
    destruct Hin as [Hin|[H|[]]]; [|unfold export_line in H; cbn [append] in H; discriminate H].
    destruct (bridge_export_blocks_In _ _ _ Hbl _ Hin) as (j & lsj & Hj & Hx).
    cbn [Nat.add] in Hj.
    destruct (bridge_export_block_shape _ _ _ Hj) as (a & t & p & its & flags & Hpg & Hfl & ->).
    apply in_app_iff in Hx. cbn [In] in Hx.
    destruct Hx as [[H|[H|[H|[]]]]|Hx];
      try (change ("_ALERT_" ++ upper k)%string with (String "_" ("ALERT_" ++ upper k)) in H;
           apply bridge_line_index in H; destruct H as [_ H]; cbn [append] in H; discriminate H).
    apply (alert_flag_lines_In j its flags Hfl) in Hx. destruct Hx as (k' & v & s & Hkv & Hs & Heq).
    change ("_ALERT_" ++ upper k)%string with (String "_" ("ALERT_" ++ upper k)) in Heq.
    change ("_ALERT_" ++ upper k')%string with (String "_" ("ALERT_" ++ upper k')) in Heq.
    apply bridge_line_index in Heq. destruct Heq as [<- Heq].
    rewrite (Hitems its Hpg) in Hkv.
    rewrite <- !str_append_assoc in Heq. apply str_append_inv_head in Heq.
    assert (Hk' : In k' bridge_alert_types).
    { apply mem_string_In. exact (check_alert_items_ok _ _ _ Hchk k' v Hkv). }
    apply split_at_char in Heq; [|apply upper_catalogue; assumption..].
    destruct Heq as [Hu Hrest].
    apply (f_equal lower) in Hu.
    rewrite (proj1 (upper_catalogue k Hk)), (proj1 (upper_catalogue k' Hk')) in Hu. subst k'.
    apply str_append_inv_head in Hrest.
    pose proof (check_alert_items_bool _ _ _ Hchk _ _ Hkv) as Hbool.
    destruct v as [|bv'| | | |]; try discriminate Hbool.
    destruct bv'; [|injection Hs as <-; discriminate Hrest].
    unfold enabled, dget_default. rewrite (proj2 (dget_In_iff items k _ Hnd) Hkv). reflexivity.
  - intros Hen. unfold enabled, dget_default in Hen.
    destruct (dget items k) as [v|] eqn:Hdk; [|discriminate Hen].
    apply (dget_In_iff _ _ _ Hnd) in Hdk.
    pose proof (check_alert_items_bool _ _ _ Hchk _ _ Hdk) as Hbool.
    destruct v as [|bv'| | | |]; try discriminate Hbool. cbn [truthy] in Hen. subst bv'.
    destruct (bridge_export_blocks_nth _ _ _ Hbl i Hi) as (lsi & Hbi & Hincl).
    cbn [Nat.add] in Hbi.
    destruct (bridge_export_block_shape _ _ _ Hbi) as (a & t & p & its & flags & Hpg & Hfl & Hls).
    rewrite (Hitems its Hpg) in Hfl.
    do 3 right. apply in_app_iff. left. apply Hincl. rewrite Hls. apply in_app_iff. right.
    apply (alert_flag_lines_In _ _ _ Hfl). exists k, (VBool true), "true". auto.
Qed.

Lemma export_alert_flags_match_rules_witness :
  exists bridges gss ls,
    validate_bridges_config bridges_two = Ok bridges /\
    generate_alert_rules bridges = Ok gss /\
    export_bridge_variables bridges "0xabc" = Ok ls /\
    (In (export_line ("SUI_BRIDGE_" ++ str_nat 1 ++ "_ALERT_" ++ upper "low_gas_balance") "true") ls <->
     In (Some "low_gas_balance") (map alert_type (file_rules (nth 1 gss [])))).
Proof.
  eexists _, _, _.
  split; [vm_compute; reflexivity|]. split; [vm_compute; reflexivity|].
  split; [vm_compute; reflexivity|].
  eapply (export_alert_flags_match_rules bridges_two _ _ "0xabc" _ 1 "low_gas_balance");
    [vm_compute; reflexivity | vm_compute; reflexivity | vm_compute; reflexivity | cbn; lia | |
     cbn; tauto].
  intros r a Hr Ha. vm_compute in Hr. injection Hr as <-. vm_compute in Ha. injection Ha as <-.
  apply nodupb_NoDup. vm_compute. reflexivity.
Defined.
